(** * ESP8266IRRecord: the display-clear policy and the formatting layer

    A shallow embedding of [src/main.cpp] (an Arduino sketch for the ESP8266
    that decodes infrared codes with IRremoteESP8266 and shows them on an
    SSD1306 display through the Adafruit libraries), and the properties of
    its polling loop.

    - C integers are [Z] with the wrap-around written out ([unsigned long]
      and [uint32_t] are 32 bits wide on the ESP8266, [uint64_t] 64).
    - The sketch talks to three devices ([Serial], [display], [irrecv]);
      every call it makes on them is recorded, in program order, as a [call].
    - What the sketch reads from the outside ([millis()], [irrecv.decode],
      the result of [display.begin], ...) comes from an [env] of readings.
    - [setup], [loop] and [displayResults] are written in a small monad [M]
      that threads the globals, collects the calls and records whether the
      function returns. *)

From Stdlib Require Import ZArith List String Ascii Bool Lia DecimalString.
From ExtLib Require Import Structures.Monad.
Import ListNotations.
Import MonadNotation.

Local Open Scope Z_scope.
Local Open Scope monad_scope.

(** ** Machine integers *)

Module CInt.

(** Value of a 32-bit unsigned object holding [z]. *)
Definition u32 (z : Z) : Z := z mod 2 ^ 32.

(** Value of a 64-bit unsigned object holding [z]. *)
Definition u64 (z : Z) : Z := z mod 2 ^ 64.

(** [a - b] on [unsigned long] / [uint32_t] operands. *)
Definition sub32 (a b : Z) : Z := u32 (a - b).

(** A 32-bit pattern read back as [int], as [%d] does. *)
Definition as_int (z : Z) : Z :=
  let u := u32 z in if u <? 2 ^ 31 then u else u - 2 ^ 32.

End CInt.

(** ** Text *)

Module Text.

Definition LF : ascii := "010"%char.
Definition CR : ascii := "013"%char.

(** A C string literal: the two characters backslash, [n] stand for a
    line feed.  It lets the literals below be the ones of the source. *)
Fixpoint lit (s : string) : string :=
  match s with
  | EmptyString => EmptyString
  | String "\" (String "n" rest) => String LF (lit rest)
  | String c rest => String c (lit rest)
  end.

Definition of_chars (cs : list ascii) : string := string_of_list_ascii cs.

End Text.

(** ** The part of [printf] the sketch uses *)

Module Printf.
Import CInt Text.

Inductive arg : Type :=
| AInt (z : Z)        (* an integer argument, after the default promotions *)
| AStr (s : string).  (* a [const char *] argument *)

Definition hex_digit (d : Z) : ascii :=
  match d with
  | 0 => "0" | 1 => "1" | 2 => "2" | 3 => "3"
  | 4 => "4" | 5 => "5" | 6 => "6" | 7 => "7"
  | 8 => "8" | 9 => "9" | 10 => "A" | 11 => "B"
  | 12 => "C" | 13 => "D" | 14 => "E" | _ => "F"
  end%char.

Definition dec_digit (d : Z) : ascii :=
  match d with
  | 0 => "0" | 1 => "1" | 2 => "2" | 3 => "3" | 4 => "4"
  | 5 => "5" | 6 => "6" | 7 => "7" | 8 => "8" | _ => "9"
  end%char.

(** Digits of [n >= 0] in base [base], most significant first, no leading
    zero ([0] is one digit).  [fuel] bounds the number of digits. *)
Fixpoint digits (digit : Z -> ascii) (base : Z) (fuel : nat) (n : Z)
  : list ascii :=
  match fuel with
  | O => []
  | S fuel' =>
      if n <? base then [digit n]
      else digits digit base fuel' (n / base) ++ [digit (n mod base)]
  end.

(** [%X] of a 32-bit argument: at most 8 digits. *)
Definition conv_X (z : Z) : list ascii := digits hex_digit 16 8 (u32 z).

(** [%d] of a 32-bit argument: a sign and at most 10 digits. *)
Definition conv_d (z : Z) : list ascii :=
  let i := as_int z in
  if i <? 0 then "-"%char :: digits dec_digit 10 10 (- i)
  else digits dec_digit 10 10 i.

(** The [0] flag with a field width. *)
Definition pad0 (width : nat) (ds : list ascii) : list ascii :=
  repeat "0"%char (width - List.length ds) ++ ds.

Definition width_of (c : ascii) : nat := (nat_of_ascii c - 48)%nat.

(** The directives that occur in the sketch and in the library's message
    macros: [%d], [%s], [%%], [%X] and [%0wX] for a one-digit width [w].
    A directive whose argument is missing or of the other kind is
    undefined in C; here it prints nothing. *)
Fixpoint sprintf (fmt : string) (args : list arg) : string :=
  match fmt with
  | EmptyString => EmptyString
  | String "%" (String "%" rest) => String "%" (sprintf rest args)
  | String "%" (String "d" rest) =>
      match args with
      | AInt z :: args' => of_chars (conv_d z) ++ sprintf rest args'
      | _ :: args' => sprintf rest args'
      | [] => sprintf rest []
      end
  | String "%" (String "s" rest) =>
      match args with
      | AStr s :: args' => s ++ sprintf rest args'
      | _ :: args' => sprintf rest args'
      | [] => sprintf rest []
      end
  | String "%" (String "X" rest) =>
      match args with
      | AInt z :: args' => of_chars (conv_X z) ++ sprintf rest args'
      | _ :: args' => sprintf rest args'
      | [] => sprintf rest []
      end
  | String "%" (String "0" (String w (String "X" rest))) =>
      match args with
      | AInt z :: args' =>
          of_chars (pad0 (width_of w) (conv_X z)) ++ sprintf rest args'
      | _ :: args' => sprintf rest args'
      | [] => sprintf rest []
      end
  | String c rest => String c (sprintf rest args)
  end%string.

End Printf.

Import CInt Text Printf.

(** ** The devices *)

(** Modelled from the spec: the decode-result record of the IR library (its
    declaration, [decode_results] of IRrecv.h, is not part of this
    repository): protocol identifier, raw numeric code (64 bits), address,
    command, raw timing buffer, overflow flag, repeat flag.  The sketch reads
    [decode_type], [value], [address], [command], [overflow] and [repeat];
    [address] and [command] are [uint32_t] there. *)
Record decode_results : Type := {
  decode_type : Z;
  value : Z;
  address : Z;
  command : Z;
  rawbuf : list Z;
  overflow : bool;
  repeat : bool
}.

(** What the sketch takes from IRremoteESP8266 without looking inside: the
    text conversions, the message macros of the locale, the default
    tolerance and the [DECODE_HASH] build switch. *)
Class IRLibrary : Type := {
  typeToString : Z -> bool -> string;
  resultToHexidecimal : decode_results -> string;
  resultToHumanReadableBasic : decode_results -> string;
  resultAcToString : decode_results -> string;
  resultToSourceCode : decode_results -> string;
  D_STR_IRRECVDUMP_STARTUP : string;
  D_WARN_BUFFERFULL : string;
  D_STR_TOLERANCE : string;
  D_STR_MESGDESC : string;
  kTolerance : Z;
  DECODE_HASH : bool
}.

Inductive color : Type := SSD1306_BLACK | SSD1306_WHITE.
Inductive vccstate : Type := SSD1306_EXTERNALVCC | SSD1306_SWITCHCAPVCC.
Inductive SerialConfig : Type := SERIAL_8N1.
Inductive SerialMode : Type := SERIAL_FULL | SERIAL_RX_ONLY | SERIAL_TX_ONLY.

(** One call of the sketch on a device, with its arguments. *)
Inductive call : Type :=
| Serial_begin (baud : Z) (config : SerialConfig) (mode : SerialMode)
| Serial_printf (fmt : string) (args : list arg)
| Serial_println (s : string)
| Serial_print (s : string)
| delay (ms : Z)
| irrecv_setUnknownThreshold (length : Z)
| irrecv_setTolerance (percent : Z)
| irrecv_enableIRIn
| display_begin (vcs : vccstate) (addr : Z)
| display_fillScreen (c : color)
| display_setCursor (x y : Z)
| display_setTextSize (s : Z)
| display_setTextColor (c : color)
| display_printf (fmt : string) (args : list arg)
| display_println (s : string)
| display_fillRect (x y w h : Z) (c : color)
| display_display.

(** The calls that reach the display, and those that write to the log. *)
Definition on_display (c : call) : bool :=
  match c with
  | display_begin _ _ | display_fillScreen _ | display_setCursor _ _
  | display_setTextSize _ | display_setTextColor _ | display_printf _ _
  | display_println _ | display_fillRect _ _ _ _ _ | display_display => true
  | _ => false
  end.

Definition on_Serial (c : call) : bool :=
  match c with
  | Serial_begin _ _ _ | Serial_printf _ _ | Serial_println _
  | Serial_print _ => true
  | _ => false
  end.

(** The characters a call sends down the serial line. *)
Definition serial_text (c : call) : string :=
  match c with
  | Serial_printf fmt args => sprintf fmt args
  | Serial_println s => s ++ String CR (String LF EmptyString)
  | Serial_print s => s
  | _ => EmptyString
  end%string.

(** The characters a call writes on the display at the cursor. *)
Definition display_text (c : call) : string :=
  match c with
  | display_printf fmt args => sprintf fmt args
  | display_println s => s ++ String CR (String LF EmptyString)
  | _ => EmptyString
  end%string.

(** The two calls that clear: [fillScreen(SSD1306_BLACK)] and
    [setCursor(0, 0)]. *)
Definition clears (c : call) : bool :=
  match c with
  | display_fillScreen _ | display_setCursor _ _ => true
  | _ => false
  end.

(** ** The outside world and the globals *)

(** What the sketch reads.  Reading [k] of a source is what its [k]-th call
    returns; [irrecv.decode] also gets the record it may overwrite.  When
    [Serial] never becomes true the sketch calls [delay(50)] without end: a
    run is then watched for the time of [waits_observed] of these calls. *)
Record env : Type := {
  millis_reading : nat -> Z;
  decode_reading : nat -> decode_results -> bool * decode_results;
  Serial_ready_after : option nat;   (* [None]: [Serial] never becomes true *)
  waits_observed : nat;
  lowLevelSanityCheck : Z;
  display_begin_result : bool
}.

(** The three globals of the sketch, and how many readings of [millis()] and
    [irrecv.decode] have been taken. *)
Record state : Type := {
  g_previousDisplayMillis : Z;
  g_currentMillis : Z;
  g_DecodeResults : decode_results;
  millis_calls : nat;
  decode_calls : nat
}.

(** A function of the sketch returns, or stays in one of the places it
    cannot leave: the [for(;;);] of [setup], the wait for [Serial], a failed
    [assert]. *)
Inductive outcome (A : Type) : Type :=
| Returned (a : A)
| Spinning
| WaitingForSerial
| AssertFailed.
Arguments Returned {A} a.
Arguments Spinning {A}.
Arguments WaitingForSerial {A}.
Arguments AssertFailed {A}.

Definition M (A : Type) : Type := env -> state -> outcome A * state * list call.

Definition M_ret {A : Type} (a : A) : M A := fun _ s => (Returned a, s, []).

Definition M_bind {A B : Type} (m : M A) (k : A -> M B) : M B :=
  fun e s =>
    match m e s with
    | (Returned a, s1, c1) =>
        match k a e s1 with (o, s2, c2) => (o, s2, c1 ++ c2) end
    | (Spinning, s1, c1) => (Spinning, s1, c1)
    | (WaitingForSerial, s1, c1) => (WaitingForSerial, s1, c1)
    | (AssertFailed, s1, c1) => (AssertFailed, s1, c1)
    end.

#[export] Instance Monad_M : Monad M := {| ret := @M_ret; bind := @M_bind |}.

Definition outcome_of {A : Type} (x : outcome A * state * list call)
  : outcome A := fst (fst x).
Definition state_of {A : Type} (x : outcome A * state * list call)
  : state := snd (fst x).
Definition calls_of {A : Type} (x : outcome A * state * list call)
  : list call := snd x.

(** *** Primitive operations *)

Definition do_call (c : call) : M unit := fun _ s => (Returned tt, s, [c]).

Definition get {A : Type} (field : state -> A) : M A :=
  fun _ s => (Returned (field s), s, []).

Definition set_g_previousDisplayMillis (v : Z) : M unit :=
  fun _ s =>
    (Returned tt,
     {| g_previousDisplayMillis := v;
        g_currentMillis := g_currentMillis s;
        g_DecodeResults := g_DecodeResults s;
        millis_calls := millis_calls s;
        decode_calls := decode_calls s |}, []).

Definition set_g_currentMillis (v : Z) : M unit :=
  fun _ s =>
    (Returned tt,
     {| g_previousDisplayMillis := g_previousDisplayMillis s;
        g_currentMillis := v;
        g_DecodeResults := g_DecodeResults s;
        millis_calls := millis_calls s;
        decode_calls := decode_calls s |}, []).

(** [millis()]: the next reading of the 32-bit millisecond counter. *)
Definition millis : M Z :=
  fun e s =>
    (Returned (u32 (millis_reading e (millis_calls s))),
     {| g_previousDisplayMillis := g_previousDisplayMillis s;
        g_currentMillis := g_currentMillis s;
        g_DecodeResults := g_DecodeResults s;
        millis_calls := S (millis_calls s);
        decode_calls := decode_calls s |}, []).

(** [irrecv.decode(&g_DecodeResults)]. *)
Definition irrecv_decode : M bool :=
  fun e s =>
    let r := decode_reading e (decode_calls s) (g_DecodeResults s) in
    (Returned (fst r),
     {| g_previousDisplayMillis := g_previousDisplayMillis s;
        g_currentMillis := g_currentMillis s;
        g_DecodeResults := snd r;
        millis_calls := millis_calls s;
        decode_calls := S (decode_calls s) |}, []).

(** [for(;;);] *)
Definition spin {A : Type} : M A := fun _ s => (Spinning, s, []).

(** [assert(b)] *)
Definition assert (b : bool) : M unit :=
  fun _ s => (if b then Returned tt else AssertFailed, s, []).

(** [while (!Serial) delay(50);]: [k] calls of [delay(50)] when [Serial] is
    true at its test number [k]; when it never is, one call after the other
    for as long as the run is watched, and no return. *)
Definition wait_for_Serial : M unit :=
  fun e s =>
    match Serial_ready_after e with
    | Some k => (Returned tt, s, List.repeat (delay 50) k)
    | None => (WaitingForSerial, s, List.repeat (delay 50) (waits_observed e))
    end.

(** [irutils::lowLevelSanityCheck()] *)
Definition irutils_lowLevelSanityCheck : M Z :=
  fun e s => (Returned (lowLevelSanityCheck e), s, []).

(** [display.begin(vcs, addr)] and its result. *)
Definition display_begin_call (vcs : vccstate) (addr : Z) : M bool :=
  fun e s => (Returned (display_begin_result e), s, [display_begin vcs addr]).

(** [if (b) { m }] *)
Definition when (b : bool) (m : M unit) : M unit := if b then m else ret tt.

(** ** The sketch *)

Section Sketch.
Context {L : IRLibrary}.

Definition SCREEN_WIDTH : Z := 128.
Definition SCREEN_HEIGHT : Z := 64.
Definition SCREEN_ADDRESS : Z := 0x3C.
Definition TEXT_SIZE_SMALL : Z := 1.
Definition TEXT_SIZE_MEDIUM : Z := 2.
Definition CLEAR_AFTER_MILLISECONDS : Z := 2000.
Definition kRecvPin : Z := 14.
Definition kBaudRate : Z := 115200.
Definition kCaptureBufferSize : Z := 4096.
Definition kMinUnknownSize : Z := 12.
Definition kTolerancePercentage : Z := kTolerance.

Definition displayResults (ir_results : decode_results) : M unit :=
  cur <- get g_currentMillis ;;
  prev <- get g_previousDisplayMillis ;;
  when (CLEAR_AFTER_MILLISECONDS <? sub32 cur prev)
    (do_call (display_fillScreen SSD1306_BLACK) ;;
     do_call (display_setCursor 0 0)) ;;
  do_call (display_setTextSize TEXT_SIZE_SMALL) ;;
  do_call (display_setTextColor SSD1306_WHITE) ;;
  r <- get g_DecodeResults ;;
  let protocol := typeToString (decode_type r) (repeat r) in
  do_call (display_printf (lit "Protocol: %s\n") [AStr protocol]) ;;
  let code := resultToHexidecimal r in
  do_call (display_printf (lit "Code    : %s\n") [AStr code]) ;;
  when (0 <? address r)
    (do_call (display_printf (lit "Address : 0x%02X%02X (%d)\n")
                [AInt (address r); AInt (sub32 0xFF (address r));
                 AInt (address r)])) ;;
  when (0 <? command r)
    (do_call (display_printf (lit "Command : 0x%02X%02X (%d)\n")
                [AInt (command r); AInt (sub32 0xFF (command r));
                 AInt (command r)])) ;;
  do_call display_display ;;
  now <- millis ;;
  set_g_previousDisplayMillis now.

Definition setup : M unit :=
  do_call (Serial_begin kBaudRate SERIAL_8N1 SERIAL_TX_ONLY) ;;
  wait_for_Serial ;;
  sanity <- irutils_lowLevelSanityCheck ;;
  assert (sanity =? 0) ;;
  do_call (Serial_printf
             (lit "\n" ++ D_STR_IRRECVDUMP_STARTUP ++ lit "\n")%string
             [AInt kRecvPin]) ;;
  when DECODE_HASH (do_call (irrecv_setUnknownThreshold kMinUnknownSize)) ;;
  do_call (irrecv_setTolerance kTolerancePercentage) ;;
  do_call irrecv_enableIRIn ;;
  ok <- display_begin_call SSD1306_SWITCHCAPVCC SCREEN_ADDRESS ;;
  (if negb ok then
     do_call (Serial_println "SSD1306 allocation FAILED") ;;
     spin
   else
     do_call (Serial_println "SSD1306 allocation SUCCEEDED")) ;;
  do_call (display_fillScreen SSD1306_BLACK) ;;
  do_call (display_setTextSize TEXT_SIZE_MEDIUM) ;;
  do_call (display_setTextColor SSD1306_WHITE) ;;
  do_call (display_setCursor 0 0) ;;
  do_call (display_println (lit "Waiting\nfor\nIR Code...")) ;;
  do_call display_display.

Definition loop : M unit :=
  now <- millis ;;
  set_g_currentMillis now ;;
  decoded <- irrecv_decode ;;
  r <- get g_DecodeResults ;;
  if decoded && negb (repeat r) then
    do_call (Serial_println "[====== ESP8266IRRecord - BEGIN ======]") ;;
    when (overflow r)
      (do_call (Serial_printf (D_WARN_BUFFERFULL ++ lit "\n")%string
                  [AInt kCaptureBufferSize])) ;;
    when (negb (kTolerancePercentage =? kTolerance))
      (do_call (Serial_printf (D_STR_TOLERANCE ++ lit " : %d%%\n")%string
                  [AInt kTolerancePercentage])) ;;
    do_call (Serial_println "[resultToHumanReadableBasic]:") ;;
    do_call (Serial_print (resultToHumanReadableBasic r)) ;;
    let description := resultAcToString r in
    when (negb (String.length description =? 0)%nat)
      (do_call (Serial_println "[resultsAcToString]:") ;;
       do_call (Serial_println
                  (D_STR_MESGDESC ++ ": " ++ description)%string)) ;;
    do_call (Serial_println "[resultsToSourceCode]:") ;;
    do_call (Serial_println (resultToSourceCode r)) ;;
    when (negb (address r =? 0))
      (do_call (Serial_printf (lit "Address: 0x%02X%02X (%d)\n")
                  [AInt (address r); AInt (sub32 0xFF (address r));
                   AInt (address r)])) ;;
    when (negb (command r =? 0))
      (do_call (Serial_printf (lit "Command: 0x%02X%02X (%d)\n")
                  [AInt (command r); AInt (sub32 0xFF (command r));
                   AInt (command r)])) ;;
    when (negb (value r =? 0))
      (do_call (Serial_printf (lit "Value  : 0x%08X%08X\n")
                  [AInt (u32 (Z.land (Z.shiftr (value r) 32) 0xFFFFFFFF));
                   AInt (u32 (Z.land (value r) 0xFFFFFFFF))])) ;;
    displayResults r ;;
    do_call (Serial_println "[====== ESP8266IRRecord - END ======]")
  else
    cur <- get g_currentMillis ;;
    prev <- get g_previousDisplayMillis ;;
    when (CLEAR_AFTER_MILLISECONDS <? sub32 cur prev)
      (do_call (display_fillRect (SCREEN_WIDTH - 2) (SCREEN_HEIGHT - 2) 2 2
                  SSD1306_WHITE) ;;
       do_call display_display).

(** The Arduino core calls [setup()] once and then [loop()] for ever;
    [sketch n] is the run up to the end of the [n]-th [loop()]. *)
Fixpoint loops (n : nat) : M unit :=
  match n with
  | O => ret tt
  | S n' => loop ;; loops n'
  end.

Definition sketch (n : nat) : M unit := setup ;; loops n.

End Sketch.

(** ** One iteration of [loop], seen from outside *)

Section Iteration.
Variables (e : env) (s : state).

(** What [millis()] returns at the top of this [loop()]. *)
Definition now : Z := u32 (millis_reading e (millis_calls s)).

(** What [irrecv.decode] returns in this [loop()], and the record it
    leaves in [g_DecodeResults]. *)
Definition polled : bool * decode_results :=
  decode_reading e (decode_calls s) (g_DecodeResults s).

Definition decoded : bool := fst polled.
Definition result : decode_results := snd polled.

(** A new code: decoded, and not a repeat. *)
Definition new_code : bool := decoded && negb (repeat result).

(** Milliseconds since the last display update, as the sketch computes
    them. *)
Definition elapsed : Z := sub32 now (g_previousDisplayMillis s).

End Iteration.

(** ** What the functions do, written out *)

(** [m], run in [e] from [s], returns [a], leaves [s'] and makes the calls
    [cs]. *)
Definition runs {A : Type} (m : M A) (e : env) (s : state)
           (a : A) (s' : state) (cs : list call) : Prop :=
  m e s = (Returned a, s', cs).

(** The calls of a guarded block. *)
Definition opt (b : bool) (cs : list call) : list call := if b then cs else [].

(** The globals once [loop] has read the clock and polled the receiver. *)
Definition after_poll (e : env) (s : state) : state :=
  {| g_previousDisplayMillis := g_previousDisplayMillis s;
     g_currentMillis := now e s;
     g_DecodeResults := result e s;
     millis_calls := S (millis_calls s);
     decode_calls := S (decode_calls s) |}.

(** The globals once [displayResults] has stamped the update. *)
Definition after_display (e : env) (s : state) : state :=
  {| g_previousDisplayMillis := u32 (millis_reading e (millis_calls s));
     g_currentMillis := g_currentMillis s;
     g_DecodeResults := g_DecodeResults s;
     millis_calls := S (millis_calls s);
     decode_calls := decode_calls s |}.

(** The arguments of an address or command line. *)
Definition field_args (v : Z) : list arg :=
  [AInt v; AInt (sub32 0xFF v); AInt v].

(** The two calls that clear the display. *)
Definition clearing : list call :=
  [display_fillScreen SSD1306_BLACK; display_setCursor 0 0].

(** The idle indicator and its flush. *)
Definition indicator : list call :=
  [display_fillRect 126 62 2 2 SSD1306_WHITE; display_display].

Section Written_out.
Context {L : IRLibrary}.

(** The calls by which [displayResults] renders [r], after the optional
    clearing. *)
Definition rendering (r : decode_results) : list call :=
  display_setTextSize 1
  :: display_setTextColor SSD1306_WHITE
  :: display_printf (lit "Protocol: %s\n")
       [AStr (typeToString (decode_type r) (repeat r))]
  :: display_printf (lit "Code    : %s\n") [AStr (resultToHexidecimal r)]
  :: opt (0 <? address r)
       [display_printf (lit "Address : 0x%02X%02X (%d)\n")
          (field_args (address r))]
  ++ opt (0 <? command r)
       [display_printf (lit "Command : 0x%02X%02X (%d)\n")
          (field_args (command r))]
  ++ [display_display].

(** The buffer-full warning. *)
Definition warning : call :=
  Serial_printf (D_WARN_BUFFERFULL ++ lit "\n")%string [AInt 4096].

(** The serial dump of [r], from the line after the BEGIN marker and the
    warning up to the call of [displayResults]. *)
Definition dump (r : decode_results) : list call :=
  Serial_println "[resultToHumanReadableBasic]:"
  :: Serial_print (resultToHumanReadableBasic r)
  :: opt (negb (String.length (resultAcToString r) =? 0)%nat)
       [Serial_println "[resultsAcToString]:";
        Serial_println (D_STR_MESGDESC ++ ": " ++ resultAcToString r)%string]
  ++ Serial_println "[resultsToSourceCode]:"
  :: Serial_println (resultToSourceCode r)
  :: opt (negb (address r =? 0))
       [Serial_printf (lit "Address: 0x%02X%02X (%d)\n")
          (field_args (address r))]
  ++ opt (negb (command r =? 0))
       [Serial_printf (lit "Command: 0x%02X%02X (%d)\n")
          (field_args (command r))]
  ++ opt (negb (value r =? 0))
       [Serial_printf (lit "Value  : 0x%08X%08X\n")
          [AInt (u32 (Z.land (Z.shiftr (value r) 32) 0xFFFFFFFF));
           AInt (u32 (Z.land (value r) 0xFFFFFFFF))]].

(** What [setup] does before it calls [display.begin], when [Serial] is
    ready after [k] waits. *)
Definition preamble (k : nat) : list call :=
  Serial_begin 115200 SERIAL_8N1 SERIAL_TX_ONLY
  :: List.repeat (delay 50) k
  ++ Serial_printf (lit "\n" ++ D_STR_IRRECVDUMP_STARTUP ++ lit "\n")%string
       [AInt 14]
  :: opt DECODE_HASH [irrecv_setUnknownThreshold 12]
  ++ [irrecv_setTolerance kTolerance; irrecv_enableIRIn].

(** The library prints a record the same with and without its overflow
    flag. *)
Definition overflow_blind (r r' : decode_results) : Prop :=
  resultToHexidecimal r' = resultToHexidecimal r
  /\ resultToHumanReadableBasic r' = resultToHumanReadableBasic r
  /\ resultAcToString r' = resultAcToString r
  /\ resultToSourceCode r' = resultToSourceCode r.

End Written_out.

(** [r] with its overflow flag cleared. *)
Definition clear_overflow (r : decode_results) : decode_results :=
  {| decode_type := decode_type r;
     value := value r;
     address := address r;
     command := command r;
     rawbuf := rawbuf r;
     overflow := false;
     repeat := repeat r |}.

(** The world [e], but where no capture exceeds the buffer. *)
Definition never_overflowing (e : env) : env :=
  {| millis_reading := millis_reading e;
     decode_reading := fun k old =>
       (fst (decode_reading e k old),
        clear_overflow (snd (decode_reading e k old)));
     Serial_ready_after := Serial_ready_after e;
     waits_observed := waits_observed e;
     lowLevelSanityCheck := lowLevelSanityCheck e;
     display_begin_result := display_begin_result e |}.

(** ** The formats of the spec *)

(** [{V:02X}]: two upper-case hexadecimal digits. *)
Definition two_hex (v : Z) : list ascii :=
  [hex_digit (v / 16); hex_digit (v mod 16)].

(** [{V}] in decimal, by the Standard Library's conversion. *)
Definition decimal (v : Z) : string :=
  NilZero.string_of_int (Z.to_int v).

(** [0x{V:02X}{(0xFF-V):02X} (V)] *)
Definition field_pair (v : Z) : string :=
  ("0x" ++ of_chars (two_hex v) ++ of_chars (two_hex (0xFF - v))
   ++ " (" ++ decimal v ++ ")")%string.

(** [v] on exactly [k] upper-case hexadecimal digits (the low [4k] bits). *)
Fixpoint hex_fixed (k : nat) (v : Z) : list ascii :=
  match k with
  | O => []
  | S k' => hex_fixed k' (v / 16) ++ [hex_digit (v mod 16)]
  end.

(** The number a hexadecimal digit stands for. *)
Definition hex_digit_value (c : ascii) : Z :=
  let n := Z.of_nat (nat_of_ascii c) in
  if n <? 58 then n - 48 else n - 55.

(** The number a string of hexadecimal digits stands for. *)
Definition hex_value (ds : list ascii) : Z :=
  fold_left (fun acc c => 16 * acc + hex_digit_value c) ds 0.

(** ** Recognising lines *)

Definition is_address_line (c : call) : bool :=
  match c with
  | display_printf fmt [_; _; _] =>
      String.eqb fmt (lit "Address : 0x%02X%02X (%d)\n")
  | Serial_printf fmt [_; _; _] =>
      String.eqb fmt (lit "Address: 0x%02X%02X (%d)\n")
  | _ => false
  end.

Definition is_command_line (c : call) : bool :=
  match c with
  | display_printf fmt [_; _; _] =>
      String.eqb fmt (lit "Command : 0x%02X%02X (%d)\n")
  | Serial_printf fmt [_; _; _] =>
      String.eqb fmt (lit "Command: 0x%02X%02X (%d)\n")
  | _ => false
  end.

Definition is_value_line (c : call) : bool :=
  match c with
  | Serial_printf fmt [_; _] => String.eqb fmt (lit "Value  : 0x%08X%08X\n")
  | _ => false
  end.

Definition is_indicator (c : call) : bool :=
  match c with
  | display_fillRect _ _ _ _ _ => true
  | _ => false
  end.

(** ** The lines of the two fields and of the value *)

Definition address_on_display (v : Z) : call :=
  display_printf (lit "Address : 0x%02X%02X (%d)\n") (field_args v).

Definition command_on_display (v : Z) : call :=
  display_printf (lit "Command : 0x%02X%02X (%d)\n") (field_args v).

Definition address_on_Serial (v : Z) : call :=
  Serial_printf (lit "Address: 0x%02X%02X (%d)\n") (field_args v).

Definition command_on_Serial (v : Z) : call :=
  Serial_printf (lit "Command: 0x%02X%02X (%d)\n") (field_args v).

Definition value_line (v : Z) : call :=
  Serial_printf (lit "Value  : 0x%08X%08X\n")
    [AInt (u32 (Z.land (Z.shiftr v 32) 0xFFFFFFFF));
     AInt (u32 (Z.land v 0xFFFFFFFF))].

(** ** A library and a world to run the sketch on *)

Module Bench.

Definition NEC : Z := 3.

Definition library : IRLibrary := {|
  typeToString := fun t rep =>
    ((if (t =? NEC)%Z then "NEC" else "UNKNOWN") ++
     (if rep then " (Repeat)" else ""))%string;
  resultToHexidecimal := fun r =>
    ("0x" ++ of_chars (digits hex_digit 16 16 (u64 (value r))))%string;
  resultToHumanReadableBasic := fun r =>
    lit "Protocol  : NEC\nCode      : 0x20DF40BF (32 Bits)\n";
  resultAcToString := fun _ => EmptyString;
  resultToSourceCode := fun r =>
    lit "uint32_t address = 0x4;\nuint32_t command = 0x2;\n";
  D_STR_IRRECVDUMP_STARTUP :=
    "IRrecvDump is now running and waiting for IR input on Pin %d";
  D_WARN_BUFFERFULL := "WARNING: IR code is too big for buffer (>= %d).";
  D_STR_TOLERANCE := "Tolerance";
  D_STR_MESGDESC := "Mesg Desc.";
  kTolerance := 25;
  DECODE_HASH := true
|}.

(** One press of a key of an NEC remote. *)
Definition press : decode_results := {|
  decode_type := NEC;
  value := 0x20DF40BF;
  address := 0x04;
  command := 0x02;
  rawbuf := [];
  overflow := false;
  repeat := false
|}.

(** The same press, too long for the capture buffer. *)
Definition long_press : decode_results := {|
  decode_type := NEC;
  value := 0x20DF40BF;
  address := 0x04;
  command := 0x02;
  rawbuf := [];
  overflow := true;
  repeat := false
|}.

(** The repeat code an NEC remote sends while the key is held. *)
Definition held : decode_results := {|
  decode_type := NEC;
  value := 0xFFFFFFFFFFFFFFFF;
  address := 0;
  command := 0;
  rawbuf := [];
  overflow := false;
  repeat := true
|}.

(** A code without address and command. *)
Definition bare : decode_results := {|
  decode_type := 0;
  value := 0x1234;
  address := 0;
  command := 0;
  rawbuf := [];
  overflow := false;
  repeat := false
|}.

(** A world where the clock reads [t] and then [t + 5], and every call of
    [irrecv.decode] returns [found] and leaves [r]. *)
Definition world (t : Z) (found : bool) (r : decode_results)
           (begin_ok : bool) : env := {|
  millis_reading := fun k => t + 5 * Z.of_nat k;
  decode_reading := fun _ _ => (found, r);
  Serial_ready_after := Some 0%nat;
  waits_observed := 0;
  lowLevelSanityCheck := 0;
  display_begin_result := begin_ok
|}.

(** The globals when the display was last updated at [t]. *)
Definition shown_at (t : Z) : state := {|
  g_previousDisplayMillis := t;
  g_currentMillis := t;
  g_DecodeResults := press;
  millis_calls := 0;
  decode_calls := 0
|}.

(** Worlds at clock 5000, and the globals of a display updated at 100,
    4900 ms before. *)
Definition pressed : env := world 5000 true press true.
Definition pressed_long : env := world 5000 true long_press true.
Definition pressed_bare : env := world 5000 true bare true.
Definition holding : env := world 5000 true held true.
Definition quiet : env := world 5000 false press true.
Definition broken_display : env := world 5000 false press false.
Definition stale : state := shown_at 100.

End Bench.

(** ** Runs of several iterations *)


(** The calls of [n] idle iterations that read the clock from reading [m]
    on, with the last display update at [prev]. *)
Fixpoint indicator_run (e : env) (prev : Z) (m n : nat) : list call :=
  match n with
  | O => []
  | S n' =>
      opt (2000 <? sub32 (u32 (millis_reading e m)) prev) indicator
      ++ indicator_run e prev (S m) n'
  end.


Definition is_flush (c : call) : bool :=
  match c with
  | display_display => true
  | _ => false
  end.

(** For [m] polls from its poll number [k0] on, the receiver has no new
    code. *)
Definition quiet_for (e : env) (k0 m : nat) : Prop :=
  forall (k : nat) (r : decode_results),
    (k0 <= k < k0 + m)%nat ->
    fst (decode_reading e k r) && negb (repeat (snd (decode_reading e k r)))
    = false.

(** The calls by which [setup] draws the waiting screen, [display.begin]
    included. *)
Definition waiting_screen : list call :=
  [display_begin SSD1306_SWITCHCAPVCC 0x3C;
   display_fillScreen SSD1306_BLACK;
   display_setTextSize 2;
   display_setTextColor SSD1306_WHITE;
   display_setCursor 0 0;
   display_println (lit "Waiting\nfor\nIR Code...");
   display_display].

Module Trial.

(** A world like [Bench.world] where [Serial] never becomes ready, watched
    for three calls of [delay(50)]. *)
Definition no_serial : env := {|
  millis_reading := fun k => 5000 + 5 * Z.of_nat k;
  decode_reading := fun _ _ => (true, Bench.press);
  Serial_ready_after := None;
  waits_observed := 3;
  lowLevelSanityCheck := 0;
  display_begin_result := true
|}.

(** A world where [Serial] is ready after two waits and the sanity check of
    the library fails. *)
Definition insane : env := {|
  millis_reading := fun k => 5000 + 5 * Z.of_nat k;
  decode_reading := fun _ _ => (true, Bench.press);
  Serial_ready_after := Some 2%nat;
  waits_observed := 0;
  lowLevelSanityCheck := 1;
  display_begin_result := true
|}.

(** A world where the clock reads 100, 700, 1300, ... and the key is
    pressed at the third poll of the receiver: nothing before, the code
    from then on. *)
Definition late_press : env := {|
  millis_reading := fun k => 100 + 600 * Z.of_nat k;
  decode_reading := fun k _ => ((2 <=? k)%nat, Bench.press);
  Serial_ready_after := Some 0%nat;
  waits_observed := 0;
  lowLevelSanityCheck := 0;
  display_begin_result := true
|}.

(** The globals at power-on. *)
Definition power_on : state := Bench.shown_at 0.

(** A key of a remote with a 16-bit address. *)
Definition wide : decode_results := {|
  decode_type := Bench.NEC;
  value := 0x1234AB54;
  address := 0x1234;
  command := 0xAB;
  rawbuf := [];
  overflow := false;
  repeat := false
|}.

End Trial.

(** * Properties *)

(** ** Running the monad *)

Section Runs.
Variables (e : env) (s : state).

Lemma runs_bind {A B : Type} (m : M A) (k : A -> M B) a s1 c1 b s2 c2 :
  runs m e s a s1 c1 -> runs (k a) e s1 b s2 c2 ->
  runs (bind m k) e s b s2 (c1 ++ c2).
Proof.
  unfold runs. intros Hm Hk. cbn. unfold M_bind. rewrite Hm, Hk. reflexivity.
Qed.

Lemma runs_call c : runs (do_call c) e s tt s [c].
Proof. reflexivity. Qed.

Lemma runs_get {A : Type} (f : state -> A) : runs (get f) e s (f s) s [].
Proof. reflexivity. Qed.

Lemma runs_when_call b c : runs (when b (do_call c)) e s tt s (opt b [c]).
Proof. destruct b; reflexivity. Qed.

Lemma runs_when_call2 b c c' :
  runs (when b (do_call c ;; do_call c')) e s tt s (opt b [c; c']).
Proof. destruct b; reflexivity. Qed.

Lemma runs_eq {A : Type} (m : M A) a s1 c1 s2 c2 :
  runs m e s a s1 c1 -> s1 = s2 -> c1 = c2 -> m e s = (Returned a, s2, c2).
Proof. unfold runs. intros -> <- <-. reflexivity. Qed.

Lemma bind_returned {A B : Type} (m : M A) (k : A -> M B) a s1 c1 :
  m e s = (Returned a, s1, c1) ->
  bind m k e s
  = (outcome_of (k a e s1), state_of (k a e s1), c1 ++ calls_of (k a e s1)).
Proof.
  intros Hm. cbn. unfold M_bind. rewrite Hm.
  destruct (k a e s1) as [[o s2] c2]. reflexivity.
Qed.

(** A function that does not return keeps what follows from running. *)
Lemma bind_spinning {A B : Type} (m : M A) (k : A -> M B) s1 c1 :
  m e s = (Spinning, s1, c1) -> bind m k e s = (Spinning, s1, c1).
Proof. intros Hm. cbn. unfold M_bind. rewrite Hm. reflexivity. Qed.

End Runs.

Ltac prim :=
  first [ apply runs_when_call2 | apply runs_when_call
        | apply runs_call | apply runs_get | reflexivity ].

Ltac tidy :=
  cbv beta zeta;
  cbn [g_previousDisplayMillis g_currentMillis g_DecodeResults
       millis_calls decode_calls].

Ltac steps :=
  repeat (tidy;
          lazymatch goal with
          | |- runs (bind _ _) _ _ _ _ _ => eapply runs_bind; [ prim | ]
          end);
  tidy.

(** ** What each function does *)

Section Equations.
Context {L : IRLibrary}.

Lemma displayResults_run (ir : decode_results) (e : env) (s : state) :
  displayResults ir e s =
  (Returned tt, after_display e s,
   opt (2000 <? sub32 (g_currentMillis s) (g_previousDisplayMillis s))
     clearing
   ++ rendering (g_DecodeResults s)).
Proof.
  eapply runs_eq; [ unfold displayResults; steps | | ]; reflexivity.
Qed.

Lemma loop_new (e : env) (s : state) :
  new_code e s = true ->
  loop e s =
  (Returned tt, after_display e (after_poll e s),
   Serial_println "[====== ESP8266IRRecord - BEGIN ======]"
   :: opt (overflow (result e s)) [warning]
   ++ dump (result e s)
   ++ opt (2000 <? elapsed e s) clearing
   ++ rendering (result e s)
   ++ [Serial_println "[====== ESP8266IRRecord - END ======]"]).
Proof.
  intros H. eapply runs_eq.
  - unfold loop. steps.
    change (fst _ && negb (repeat (snd _))) with (new_code e s). rewrite H.
    unfold kTolerancePercentage. rewrite Z.eqb_refl. cbn [negb].
    steps. eapply runs_bind; [ apply displayResults_run | apply runs_call ].
  - reflexivity.
  - unfold dump. change (opt false ?x) with (@nil call).
    cbn [app]. repeat (rewrite <- app_assoc; cbn [app]). reflexivity.
Qed.

Lemma loop_idle (e : env) (s : state) :
  new_code e s = false ->
  loop e s = (Returned tt, after_poll e s, opt (2000 <? elapsed e s) indicator).
Proof.
  intros H. eapply runs_eq.
  - unfold loop. steps.
    change (fst _ && negb (repeat (snd _))) with (new_code e s). rewrite H.
    steps. apply runs_when_call2.
  - reflexivity.
  - reflexivity.
Qed.

(** [loop] always returns. *)
Lemma loop_returns (e : env) (s : state) : outcome_of (loop e s) = Returned tt.
Proof.
  destruct (new_code e s) eqn:H;
    [ rewrite (loop_new _ _ H) | rewrite (loop_idle _ _ H) ]; reflexivity.
Qed.

Lemma setup_run (e : env) (s : state) (k : nat) :
  Serial_ready_after e = Some k ->
  lowLevelSanityCheck e = 0 ->
  setup e s =
  if display_begin_result e then
    (Returned tt, s,
     preamble k
     ++ [display_begin SSD1306_SWITCHCAPVCC 0x3C;
         Serial_println "SSD1306 allocation SUCCEEDED";
         display_fillScreen SSD1306_BLACK;
         display_setTextSize 2;
         display_setTextColor SSD1306_WHITE;
         display_setCursor 0 0;
         display_println (lit "Waiting\nfor\nIR Code...");
         display_display])
  else
    (Spinning, s,
     preamble k
     ++ [display_begin SSD1306_SWITCHCAPVCC 0x3C;
         Serial_println "SSD1306 allocation FAILED"]).
Proof.
  intros Hready Hsane.
  unfold setup, preamble. cbn. unfold M_bind, wait_for_Serial. cbn.
  rewrite Hready. cbn. rewrite Hsane. cbn.
  unfold when, opt. destruct DECODE_HASH; cbn;
    destruct (display_begin_result e); cbn;
    rewrite <- ?app_assoc; reflexivity.
Qed.

End Equations.

(** ** The display-clear policy *)

Section Policy.
Context {L : IRLibrary}.

Lemma rendering_never_clears (r : decode_results) :
  existsb clears (rendering r) = false.
Proof.
  unfold rendering, opt.
  destruct (0 <? address r), (0 <? command r); reflexivity.
Qed.

Lemma rendering_on_display (r : decode_results) :
  filter on_display (rendering r) = rendering r.
Proof.
  unfold rendering, opt.
  destruct (0 <? address r), (0 <? command r); reflexivity.
Qed.

Lemma dump_on_Serial (r : decode_results) :
  filter on_display (dump r) = [] /\ existsb clears (dump r) = false.
Proof.
  unfold dump, opt.
  destruct (negb (String.length _ =? 0)%nat), (negb (address r =? 0)),
    (negb (command r =? 0)), (negb (value r =? 0)); split; reflexivity.
Qed.

Lemma repeat_is_not_new (e : env) (s : state) :
  repeat (result e s) = true -> new_code e s = false.
Proof.
  unfold new_code. intros ->. apply andb_false_r.
Qed.

Lemma elapsed_range (e : env) (s : state) : 0 <= elapsed e s < 2 ^ 32.
Proof. unfold elapsed, sub32, u32. apply Z.mod_pos_bound. reflexivity. Qed.

(** C1: a new, non-repeat decode result is rendered after the two clearing
    calls (fill the screen black, cursor to 0,0) exactly when the elapsed
    time [g_currentMillis - g_previousDisplayMillis] is above 2000 ms; at
    2000 ms or less the display receives the rendering calls alone, none
    of which clears. *)
Theorem clear_iff_elapsed_exceeds_threshold (e : env) (s : state) :
  new_code e s = true ->
  filter on_display (calls_of (loop e s))
  = (if 2000 <? elapsed e s
     then [display_fillScreen SSD1306_BLACK; display_setCursor 0 0]
     else [])
    ++ rendering (result e s)
  /\ existsb clears (rendering (result e s)) = false
  /\ (existsb clears (calls_of (loop e s)) = true <-> 2000 < elapsed e s)
  /\ elapsed e s
     = sub32 (g_currentMillis (state_of (loop e s)))
             (g_previousDisplayMillis s).
Proof.
  intros Hnew. rewrite (loop_new e s Hnew).
  unfold calls_of, state_of. cbn [fst snd].
  destruct (dump_on_Serial (result e s)) as [Hd Hc].
  repeat split.
  - cbn [filter on_display]. rewrite !filter_app, Hd, rendering_on_display.
    unfold opt, warning, clearing.
    destruct (overflow (result e s)), (2000 <? elapsed e s);
      cbn -[rendering]; rewrite ?app_nil_r; reflexivity.
  - apply rendering_never_clears.
  - cbn [existsb clears orb]. rewrite !existsb_app, Hc, rendering_never_clears.
    unfold opt, warning, clearing.
    destruct (overflow (result e s)); destruct (Z.ltb_spec 2000 (elapsed e s));
      cbn; intros; (lia || discriminate).
  - cbn [existsb clears orb]. rewrite !existsb_app, Hc, rendering_never_clears.
    unfold opt, warning, clearing.
    destruct (overflow (result e s)); destruct (Z.ltb_spec 2000 (elapsed e s));
      cbn; intros; (lia || reflexivity).
Qed.

(** C2: in an iteration without a new code, above 2000 ms of elapsed time
    the only calls are one [fillRect(126, 62, 2, 2, SSD1306_WHITE)] and the
    flush; at 2000 ms or less there is no call at all. *)
Theorem idle_indicator (e : env) (s : state) :
  new_code e s = false ->
  calls_of (loop e s)
  = if 2000 <? elapsed e s
    then [display_fillRect (128 - 2) (64 - 2) 2 2 SSD1306_WHITE;
          display_display]
    else [].
Proof.
  intros Hidle. rewrite (loop_idle e s Hidle). reflexivity.
Qed.

(** C3: a decode result with the repeat flag set starts no render cycle:
    nothing is written to the serial log, the calls of the iteration
    contain no run of [displayResults] (whose one reading of [millis()] is
    not taken either), and [g_previousDisplayMillis] keeps its value. *)
Theorem repeat_triggers_no_render (e : env) (s : state) :
  repeat (result e s) = true ->
  filter on_Serial (calls_of (loop e s)) = []
  /\ (forall ir e' s',
         ~ incl (calls_of (displayResults ir e' s')) (calls_of (loop e s)))
  /\ millis_calls (state_of (loop e s)) = S (millis_calls s)
  /\ g_previousDisplayMillis (state_of (loop e s)) = g_previousDisplayMillis s.
Proof.
  intros Hrep. rewrite (loop_idle e s (repeat_is_not_new e s Hrep)).
  unfold calls_of, state_of. cbn [fst snd]. repeat split.
  - unfold opt, indicator. destruct (2000 <? elapsed e s); reflexivity.
  - intros ir e' s' Hincl. rewrite displayResults_run in Hincl.
    assert (Hin : In (display_setTextSize 1)
                     (opt (2000 <? elapsed e s) indicator)).
    { apply Hincl. cbn [snd]. apply in_or_app. right. left. reflexivity. }
    unfold opt, indicator in Hin.
    destruct (2000 <? elapsed e s); cbn in Hin;
      repeat (destruct Hin as [Hin | Hin]; try discriminate Hin); exact Hin.
Qed.

(** C7: [loop] leaves [g_previousDisplayMillis] as it was unless it handles
    a new code, and then leaves the globals as [displayResults] leaves
    them; [displayResults] ends with the flush and writes that one global,
    with the reading of [millis()] it takes; [g_currentMillis] and
    [g_DecodeResults] are what [loop] read at its top; [setup] writes no
    global. *)
Theorem previous_millis_written_only_by_displayResults (e : env) (s : state) :
  (if new_code e s
   then state_of (loop e s)
        = state_of (displayResults (result e s) e (after_poll e s))
   else g_previousDisplayMillis (state_of (loop e s))
        = g_previousDisplayMillis s)
  /\ g_currentMillis (state_of (loop e s)) = now e s
  /\ g_DecodeResults (state_of (loop e s)) = result e s
  /\ (forall ir,
         g_previousDisplayMillis (state_of (displayResults ir e s))
         = u32 (millis_reading e (millis_calls s))
         /\ g_currentMillis (state_of (displayResults ir e s))
            = g_currentMillis s
         /\ g_DecodeResults (state_of (displayResults ir e s))
            = g_DecodeResults s
         /\ exists before,
             calls_of (displayResults ir e s) = before ++ [display_display])
  /\ state_of (setup e s) = s.
Proof.
  repeat split.
  - destruct (new_code e s) eqn:H.
    + rewrite (loop_new e s H), displayResults_run. reflexivity.
    + rewrite (loop_idle e s H). reflexivity.
  - destruct (new_code e s) eqn:H;
      [ rewrite (loop_new e s H) | rewrite (loop_idle e s H) ]; reflexivity.
  - destruct (new_code e s) eqn:H;
      [ rewrite (loop_new e s H) | rewrite (loop_idle e s H) ]; reflexivity.
  - rewrite displayResults_run. reflexivity.
  - rewrite displayResults_run. reflexivity.
  - rewrite displayResults_run. reflexivity.
  - rewrite displayResults_run. unfold calls_of. cbn [snd].
    unfold rendering.
    eexists. rewrite !app_comm_cons, !app_assoc. reflexivity.
  - unfold setup. cbn. unfold M_bind, wait_for_Serial, when. cbn.
    destruct (Serial_ready_after e); cbn; [ | reflexivity ].
    destruct (lowLevelSanityCheck e =? 0); cbn; [ | reflexivity ].
    destruct DECODE_HASH; cbn; destruct (display_begin_result e); reflexivity.
Qed.

(** C10: the elapsed time of both checks is the difference of the clock
    reading and [g_previousDisplayMillis] modulo 2^32, so it is never
    negative; the clearing calls are made exactly for a new code with that
    difference above 2000, the indicator exactly without a new code and
    with that difference above 2000; and advancing both timestamps by the
    same amount, across a wrap of the counter or not, leaves the elapsed
    time the same. *)
Theorem elapsed_is_modular_difference (e : env) (s : state) :
  0 <= elapsed e s < 2 ^ 32
  /\ elapsed e s
     = (millis_reading e (millis_calls s) - g_previousDisplayMillis s)
       mod 2 ^ 32
  /\ existsb clears (calls_of (loop e s))
     = new_code e s && (2000 <? elapsed e s)
  /\ existsb is_indicator (calls_of (loop e s))
     = negb (new_code e s) && (2000 <? elapsed e s)
  /\ forall k,
      sub32 (u32 (now e s + k)) (u32 (g_previousDisplayMillis s + k))
      = elapsed e s.
Proof.
  split; [ apply elapsed_range | ].
  split.
  { unfold elapsed, now, sub32, u32. apply Zminus_mod_idemp_l. }
  split; [ | split ].
  - destruct (new_code e s) eqn:H.
    + rewrite (loop_new e s H). unfold calls_of.
      cbn [snd existsb clears orb andb].
      destruct (dump_on_Serial (result e s)) as [_ Hc].
      rewrite !existsb_app, Hc, rendering_never_clears.
      unfold opt, warning, clearing.
      destruct (overflow (result e s)), (2000 <? elapsed e s); reflexivity.
    + rewrite (loop_idle e s H). unfold calls_of, opt, indicator.
      cbn [snd andb].
      destruct (2000 <? elapsed e s); reflexivity.
  - destruct (new_code e s) eqn:H.
    + rewrite (loop_new e s H). unfold calls_of.
      cbn [snd existsb is_indicator orb andb negb].
      rewrite !existsb_app.
      unfold opt, warning, clearing, dump, rendering, opt.
      destruct (overflow (result e s)), (2000 <? elapsed e s),
        (negb (String.length _ =? 0)%nat), (negb (address _ =? 0)),
        (negb (command _ =? 0)), (negb (value _ =? 0)),
        (0 <? address _), (0 <? command _); reflexivity.
    + rewrite (loop_idle e s H). unfold calls_of, opt, indicator.
      cbn [snd andb negb].
      destruct (2000 <? elapsed e s); reflexivity.
  - intros k. unfold elapsed, sub32, u32.
    rewrite Zminus_mod_idemp_l, Zminus_mod_idemp_r.
    f_equal. ring.
Qed.

End Policy.

(** ** Hexadecimal digits *)

Section Hex.

Lemma of_chars_app (a b : list ascii) :
  of_chars (a ++ b) = (of_chars a ++ of_chars b)%string.
Proof.
  unfold of_chars.
  induction a as [| c a IH]; cbn; [ | rewrite IH ]; reflexivity.
Qed.

Lemma pad0_snoc (w : nat) (ds : list ascii) (d : ascii) :
  pad0 (S w) (ds ++ [d]) = pad0 w ds ++ [d].
Proof.
  unfold pad0. rewrite length_app. cbn [List.length].
  replace (S w - (List.length ds + 1))%nat with (w - List.length ds)%nat by lia.
  apply app_assoc.
Qed.

Lemma length_hex_fixed (k : nat) (v : Z) : List.length (hex_fixed k v) = k.
Proof.
  revert v. induction k as [| k IH]; intros v; cbn [hex_fixed].
  - reflexivity.
  - rewrite length_app, IH. cbn. lia.
Qed.

Lemma hex_fixed_zero (k : nat) : hex_fixed k 0 = List.repeat "0"%char k.
Proof.
  induction k as [| k IH]; cbn [hex_fixed].
  - reflexivity.
  - change (0 / 16) with 0. rewrite IH. symmetry.
    change (hex_digit (0 mod 16)) with "0"%char.
    apply repeat_cons.
Qed.

Lemma string_app_assoc (a b c : string) :
  ((a ++ b) ++ c = a ++ b ++ c)%string.
Proof.
  induction a as [| x a IH]; cbn; [ | rewrite IH ]; reflexivity.
Qed.

Lemma pow16_succ (k : nat) : 16 ^ Z.of_nat (S k) = 16 * 16 ^ Z.of_nat k.
Proof. rewrite Nat2Z.inj_succ, Z.pow_succ_r by lia. reflexivity. Qed.

Lemma pow16_pos (k : nat) : 0 < 16 ^ Z.of_nat k.
Proof. apply Z.pow_pos_nonneg; lia. Qed.

(** [%0kX] of a number that fits [k] digits is its [k]-digit form. *)
Lemma pad0_digits (k : nat) :
  forall (fuel : nat) (n : Z),
    (1 <= k <= fuel)%nat -> 0 <= n < 16 ^ Z.of_nat k ->
    pad0 k (digits hex_digit 16 fuel n) = hex_fixed k n.
Proof.
  induction k as [| k IH]; intros fuel n Hk Hn; [ lia | ].
  destruct fuel as [| fuel]; [ lia | ].
  cbn [digits hex_fixed]. rewrite pow16_succ in Hn.
  destruct (Z.ltb_spec n 16) as [Hsmall | Hbig].
  - rewrite Z.div_small, Z.mod_small, hex_fixed_zero by lia.
    unfold pad0. cbn [List.length]. f_equal. f_equal. lia.
  - assert (Hk' : (1 <= k)%nat).
    { destruct k; [ cbn in Hn; lia | lia ]. }
    rewrite pad0_snoc. f_equal. apply IH; [ lia | ].
    split; [ apply Z.div_pos; lia | apply Z.div_lt_upper_bound; lia ].
Qed.

Lemma hex_fixed_split (a b : nat) (v : Z) :
  hex_fixed (a + b) v = hex_fixed a (v / 16 ^ Z.of_nat b) ++ hex_fixed b v.
Proof.
  revert v. induction b as [| b IH]; intros v.
  - rewrite Nat.add_0_r, Z.div_1_r, app_nil_r. reflexivity.
  - rewrite Nat.add_succ_r. cbn [hex_fixed]. rewrite IH, pow16_succ.
    rewrite Z.div_div by (pose proof (pow16_pos b); lia).
    symmetry. apply app_assoc.
Qed.

Lemma hex_fixed_mod (k : nat) (v : Z) :
  hex_fixed k (v mod 16 ^ Z.of_nat k) = hex_fixed k v.
Proof.
  revert v. induction k as [| k IH]; intros v; cbn [hex_fixed];
    [ reflexivity | ].
  rewrite pow16_succ.
  pose proof (pow16_pos k) as Hpos.
  rewrite Z.rem_mul_r by lia.
  replace ((v mod 16 + 16 * ((v / 16) mod 16 ^ Z.of_nat k)) / 16)
    with ((v / 16) mod 16 ^ Z.of_nat k).
  2:{ rewrite Z.mul_comm, Z.div_add by lia.
      rewrite (Z.div_small (v mod 16)) by (apply Z.mod_pos_bound; lia). lia. }
  replace ((v mod 16 + 16 * ((v / 16) mod 16 ^ Z.of_nat k)) mod 16)
    with (v mod 16).
  2:{ rewrite Z.mul_comm, Z.mod_add by lia.
      rewrite Z.mod_mod by lia. reflexivity. }
  rewrite IH. reflexivity.
Qed.

Lemma hex_digit_value_digit (d : Z) :
  0 <= d < 16 -> hex_digit_value (hex_digit d) = d.
Proof.
  intros Hd.
  assert (H : d = 0 \/ d = 1 \/ d = 2 \/ d = 3 \/ d = 4 \/ d = 5 \/ d = 6
              \/ d = 7 \/ d = 8 \/ d = 9 \/ d = 10 \/ d = 11 \/ d = 12
              \/ d = 13 \/ d = 14 \/ d = 15) by lia.
  repeat (destruct H as [-> | H]; [ reflexivity | ]). subst d. reflexivity.
Qed.

Lemma hex_value_snoc (ds : list ascii) (c : ascii) :
  hex_value (ds ++ [c]) = 16 * hex_value ds + hex_digit_value c.
Proof. unfold hex_value. rewrite fold_left_app. reflexivity. Qed.

(** The [k] digits of [v] stand for [v] modulo [16^k]. *)
Lemma hex_value_fixed (k : nat) (v : Z) :
  hex_value (hex_fixed k v) = v mod 16 ^ Z.of_nat k.
Proof.
  revert v. induction k as [| k IH]; intros v; cbn [hex_fixed].
  - cbn. rewrite Z.mod_1_r. reflexivity.
  - rewrite hex_value_snoc, IH, pow16_succ.
    rewrite hex_digit_value_digit by (apply Z.mod_pos_bound; lia).
    pose proof (pow16_pos k). rewrite Z.rem_mul_r by lia. lia.
Qed.

(** The two [%08X] of the Value line, side by side, are the 16 digits of
    the 64-bit value. *)
Lemma value_halves (v : Z) :
  0 <= v < 2 ^ 64 ->
  pad0 8 (conv_X (u32 (Z.land (Z.shiftr v 32) 0xFFFFFFFF)))
  = hex_fixed 8 (v / 2 ^ 32)
  /\ pad0 8 (conv_X (u32 (Z.land v 0xFFFFFFFF))) = hex_fixed 8 (v mod 2 ^ 32)
  /\ hex_fixed 8 (v / 2 ^ 32) ++ hex_fixed 8 (v mod 2 ^ 32) = hex_fixed 16 v.
Proof.
  intros Hv.
  change 0xFFFFFFFF with (Z.ones 32).
  rewrite !Z.land_ones, Z.shiftr_div_pow2 by lia.
  unfold conv_X, u32. rewrite !Z.mod_mod by lia.
  assert (Hhi : 0 <= v / 2 ^ 32 < 2 ^ 32).
  { split; [ apply Z.div_pos; lia | apply Z.div_lt_upper_bound; lia ]. }
  rewrite (Z.mod_small (v / 2 ^ 32)) by lia.
  assert (Hlo : 0 <= v mod 2 ^ 32 < 2 ^ 32) by (apply Z.mod_pos_bound; lia).
  repeat split.
  - apply pad0_digits; [ lia | exact Hhi ].
  - apply pad0_digits; [ lia | exact Hlo ].
  - change (2 ^ 32) with (16 ^ Z.of_nat 8). rewrite hex_fixed_mod.
    symmetry. apply (hex_fixed_split 8 8).
Qed.

Lemma value_line_text (v : Z) :
  0 <= v < 2 ^ 64 ->
  sprintf (lit "Value  : 0x%08X%08X\n")
    [AInt (u32 (Z.land (Z.shiftr v 32) 0xFFFFFFFF));
     AInt (u32 (Z.land v 0xFFFFFFFF))]
  = (lit "Value  : 0x" ++ of_chars (hex_fixed 16 v) ++ lit "\n")%string.
Proof.
  intros Hv. destruct (value_halves v Hv) as (Hhi & Hlo & Hcat).
  rewrite <- Hcat, of_chars_app, <- Hhi, <- Hlo.
  generalize (u32 (Z.land (Z.shiftr v 32) 0xFFFFFFFF)) as hi.
  generalize (u32 (Z.land v 0xFFFFFFFF)) as lo. intros lo hi.
  rewrite string_app_assoc. reflexivity.
Qed.

End Hex.

(** ** The formatting layer *)

Section Formatting.
Context {L : IRLibrary}.

Lemma two_hex_byte (v : Z) :
  0 <= v <= 255 -> pad0 2 (conv_X v) = two_hex v.
Proof.
  intros Hv. unfold conv_X, u32. rewrite Z.mod_small by lia.
  rewrite (pad0_digits 2 8 v) by (cbn; lia).
  unfold two_hex. cbn [hex_fixed app].
  rewrite (Z.mod_small (v / 16)); [ reflexivity | ].
  split; [ apply Z.div_pos; lia | apply Z.div_lt_upper_bound; lia ].
Qed.

(** [%d] of a byte is the byte in decimal: all 256 cases, by evaluation. *)
Lemma decimal_byte (v : Z) :
  0 <= v <= 255 -> of_chars (conv_d v) = decimal v.
Proof.
  intros Hv.
  assert (Hall : forallb (fun n => String.eqb (of_chars (conv_d (Z.of_nat n)))
                                     (decimal (Z.of_nat n)))
                   (seq 0 256) = true) by (vm_compute; reflexivity).
  rewrite forallb_forall in Hall.
  specialize (Hall (Z.to_nat v)).
  rewrite Z2Nat.id in Hall by lia.
  apply String.eqb_eq, Hall, in_seq. lia.
Qed.

(** The conversions of a field line, one by one. *)
Lemma field_line_conversions (a b c : Z) :
  let body := (of_chars (pad0 2 (conv_X a)) ++ of_chars (pad0 2 (conv_X b))
               ++ " (" ++ of_chars (conv_d c) ++ lit ")\n")%string in
  sprintf (lit "Address : 0x%02X%02X (%d)\n") [AInt a; AInt b; AInt c]
  = ("Address : 0x" ++ body)%string
  /\ sprintf (lit "Command : 0x%02X%02X (%d)\n") [AInt a; AInt b; AInt c]
     = ("Command : 0x" ++ body)%string
  /\ sprintf (lit "Address: 0x%02X%02X (%d)\n") [AInt a; AInt b; AInt c]
     = ("Address: 0x" ++ body)%string
  /\ sprintf (lit "Command: 0x%02X%02X (%d)\n") [AInt a; AInt b; AInt c]
     = ("Command: 0x" ++ body)%string.
Proof. repeat split. Qed.

(** The text of the four field lines, for a byte above zero. *)
Lemma field_line_text (v : Z) :
  0 < v <= 255 ->
  display_text (address_on_display v)
  = (lit "Address : " ++ field_pair v ++ lit "\n")%string
  /\ display_text (command_on_display v)
     = (lit "Command : " ++ field_pair v ++ lit "\n")%string
  /\ serial_text (address_on_Serial v)
     = (lit "Address: " ++ field_pair v ++ lit "\n")%string
  /\ serial_text (command_on_Serial v)
     = (lit "Command: " ++ field_pair v ++ lit "\n")%string.
Proof.
  intros Hv.
  assert (Hsub : sub32 0xFF v = 0xFF - v).
  { unfold sub32, u32. apply Z.mod_small. lia. }
  unfold address_on_display, command_on_display, address_on_Serial,
    command_on_Serial, field_args, display_text, serial_text.
  destruct (field_line_conversions v (sub32 0xFF v) v) as (-> & -> & -> & ->).
  rewrite Hsub, !two_hex_byte, decimal_byte by lia.
  unfold field_pair.
  generalize (of_chars (two_hex v)) as hi.
  generalize (of_chars (two_hex (0xFF - v))) as lo.
  generalize (decimal v) as dec. intros dec lo hi.
  repeat split; repeat (progress (cbn; rewrite ?string_app_assoc));
    reflexivity.
Qed.

Lemma in_loop_calls (e : env) (s : state) (c : call) :
  new_code e s = true ->
  In c (dump (result e s)) \/ In c (rendering (result e s)) ->
  In c (calls_of (loop e s)).
Proof.
  intros Hnew Hin. rewrite (loop_new e s Hnew). unfold calls_of. cbn [snd].
  right. apply in_or_app. right.
  apply in_or_app. destruct Hin as [Hin | Hin]; [ left; exact Hin | right ].
  apply in_or_app. right. apply in_or_app. left. exact Hin.
Qed.

Lemma field_lines_in_dump (r : decode_results) :
  (address r <> 0 -> In (address_on_Serial (address r)) (dump r))
  /\ (command r <> 0 -> In (command_on_Serial (command r)) (dump r))
  /\ (value r <> 0 -> In (value_line (value r)) (dump r)).
Proof.
  unfold dump, opt.
  destruct (Z.eqb_spec (address r) 0), (Z.eqb_spec (command r) 0),
    (Z.eqb_spec (value r) 0);
    repeat split; intros Hne; try contradiction;
    do 2 right; apply in_or_app; right; cbn; tauto.
Qed.

Lemma field_lines_in_rendering (r : decode_results) :
  (0 < address r -> In (address_on_display (address r)) (rendering r))
  /\ (0 < command r -> In (command_on_display (command r)) (rendering r)).
Proof.
  unfold rendering, opt.
  destruct (Z.ltb_spec 0 (address r)), (Z.ltb_spec 0 (command r));
    split; intros Hpos; try lia; cbn; tauto.
Qed.

(** C4: for a new code whose address (its command) is a byte V above zero,
    the display gets the line [Address : ] (or [Command : ]) and the serial
    log the line [Address: ] (or [Command: ]), each followed by
    [0x{V:02X}{(0xFF-V):02X} (V)] and a line feed: V on two upper-case
    hexadecimal digits, [0xFF - V] on two, V in decimal in parentheses,
    the same on both devices. *)
Theorem address_and_command_lines (e : env) (s : state) :
  new_code e s = true ->
  (0 < address (result e s) <= 255 ->
   let v := address (result e s) in
   In (address_on_display v) (calls_of (loop e s))
   /\ display_text (address_on_display v)
      = (lit "Address : " ++ field_pair v ++ lit "\n")%string
   /\ In (address_on_Serial v) (calls_of (loop e s))
   /\ serial_text (address_on_Serial v)
      = (lit "Address: " ++ field_pair v ++ lit "\n")%string)
  /\ (0 < command (result e s) <= 255 ->
      let v := command (result e s) in
      In (command_on_display v) (calls_of (loop e s))
      /\ display_text (command_on_display v)
         = (lit "Command : " ++ field_pair v ++ lit "\n")%string
      /\ In (command_on_Serial v) (calls_of (loop e s))
      /\ serial_text (command_on_Serial v)
         = (lit "Command: " ++ field_pair v ++ lit "\n")%string).
Proof.
  intros Hnew.
  destruct (field_lines_in_dump (result e s)) as (Hsa & Hsc & _).
  destruct (field_lines_in_rendering (result e s)) as (Hda & Hdc).
  split; intros Hv v; subst v;
    destruct (field_line_text _ Hv) as (Tda & Tdc & Tsa & Tsc).
  - repeat split; try assumption.
    + apply in_loop_calls; [ exact Hnew | right; apply Hda; lia ].
    + apply in_loop_calls; [ exact Hnew | left; apply Hsa; lia ].
  - repeat split; try assumption.
    + apply in_loop_calls; [ exact Hnew | right; apply Hdc; lia ].
    + apply in_loop_calls; [ exact Hnew | left; apply Hsc; lia ].
Qed.

Lemma no_field_line_when_idle (b : bool) :
  existsb is_address_line (opt b indicator) = false
  /\ existsb is_command_line (opt b indicator) = false
  /\ existsb is_value_line (opt b indicator) = false.
Proof. destruct b; repeat split. Qed.

(** C8: when the address of the decode result is 0, no call of the
    iteration is an address line, on the display or on the serial log; when
    its command is 0, none is a command line. *)
Theorem zero_field_is_omitted (e : env) (s : state) :
  (address (result e s) = 0 ->
   existsb is_address_line (calls_of (loop e s)) = false)
  /\ (command (result e s) = 0 ->
      existsb is_command_line (calls_of (loop e s)) = false).
Proof.
  destruct (new_code e s) eqn:Hnew.
  - rewrite (loop_new e s Hnew). unfold calls_of. cbn [snd].
    split; intros Hzero;
      cbn [existsb orb is_address_line is_command_line];
      rewrite !existsb_app;
      unfold dump, rendering, warning, clearing, opt; rewrite Hzero;
      cbn [Z.eqb Z.ltb Z.compare negb];
      destruct (overflow (result e s)), (2000 <? elapsed e s),
        (negb (String.length _ =? 0)%nat), (negb (value _ =? 0)).
    all: try (destruct (negb (command (result e s) =? 0)),
                (0 <? command (result e s)); reflexivity).
    all: destruct (negb (address (result e s) =? 0)),
           (0 <? address (result e s)); reflexivity.
  - rewrite (loop_idle e s Hnew). unfold calls_of. cbn [snd].
    destruct (no_field_line_when_idle (2000 <? elapsed e s)) as (Ha & Hc & _).
    split; intros _; assumption.
Qed.

(** C9, as the sketch has it: for a new, non-repeat decode result with the
    64-bit value [v], the serial log gets a Value line if and only if
    [v <> 0]; the line prints [v >> 32] and then the low 32 bits of [v],
    each on exactly 8 upper-case hexadecimal digits, and the 16 digits are
    those of [v] itself. *)
Theorem value_line_of_new_code (e : env) (s : state) :
  new_code e s = true ->
  0 <= value (result e s) < 2 ^ 64 ->
  let v := value (result e s) in
  (existsb is_value_line (calls_of (loop e s)) = true <-> v <> 0)
  /\ (v <> 0 -> In (value_line v) (calls_of (loop e s)))
  /\ serial_text (value_line v)
     = (lit "Value  : 0x" ++ of_chars (hex_fixed 16 v) ++ lit "\n")%string
  /\ pad0 8 (conv_X (u32 (Z.land (Z.shiftr v 32) 0xFFFFFFFF)))
     = hex_fixed 8 (v / 2 ^ 32)
  /\ pad0 8 (conv_X (u32 (Z.land v 0xFFFFFFFF))) = hex_fixed 8 (v mod 2 ^ 32)
  /\ hex_fixed 8 (v / 2 ^ 32) ++ hex_fixed 8 (v mod 2 ^ 32) = hex_fixed 16 v
  /\ List.length (hex_fixed 16 v) = 16%nat
  /\ hex_value (hex_fixed 16 v) = v.
Proof.
  intros Hnew Hv v. subst v.
  destruct (value_halves _ Hv) as (Hhi & Hlo & Hcat).
  destruct (field_lines_in_dump (result e s)) as (_ & _ & Hin).
  split; [ | split; [ | split; [ | split; [ | split; [ | split;
    [ | split ] ] ] ] ] ]; try assumption.
  - rewrite (loop_new e s Hnew). unfold calls_of. cbn [snd].
    cbn [existsb orb is_value_line]. rewrite !existsb_app.
    unfold dump, rendering, warning, clearing, opt.
    destruct (Z.eqb_spec (value (result e s)) 0) as [Hz | Hz];
      destruct (overflow (result e s)), (2000 <? elapsed e s),
        (negb (String.length _ =? 0)%nat), (negb (address _ =? 0)),
        (negb (command _ =? 0)), (0 <? address _), (0 <? command _);
      cbn; split; intros; (congruence || reflexivity).
  - intros Hne. apply in_loop_calls; [ exact Hnew | left; apply Hin, Hne ].
  - apply value_line_text, Hv.
  - apply length_hex_fixed.
  - rewrite hex_value_fixed. apply Z.mod_small. exact Hv.
Qed.

End Formatting.

(** ** Failures *)

Section Failures.
Context {L : IRLibrary}.

Lemma blind_dump (r : decode_results) :
  overflow_blind r (clear_overflow r) ->
  dump (clear_overflow r) = dump r
  /\ rendering (clear_overflow r) = rendering r.
Proof.
  intros (Hhex & Hbasic & Hac & Hsrc).
  unfold dump, rendering. rewrite Hhex, Hbasic, Hac, Hsrc.
  split; reflexivity.
Qed.

(** C5: for a new code with the overflow flag set, the warning is the
    line of the serial log after the BEGIN marker, and the iteration goes
    on with everything it does for a code: the whole dump of the record,
    the run of [displayResults] (the clearing when it is due, and the
    rendering), the END marker, and [loop] returns.  Where the library
    prints the record the same with and without the flag, these calls and
    the time stamp are those of the same iteration for the record without
    the flag. *)
Theorem overflow_warns_and_continues (e : env) (s : state) :
  new_code e s = true ->
  overflow (result e s) = true ->
  calls_of (loop e s)
  = Serial_println "[====== ESP8266IRRecord - BEGIN ======]"
    :: Serial_printf (D_WARN_BUFFERFULL ++ lit "\n")%string
         [AInt kCaptureBufferSize]
    :: dump (result e s)
    ++ calls_of (displayResults (result e s) e (after_poll e s))
    ++ [Serial_println "[====== ESP8266IRRecord - END ======]"]
  /\ calls_of (displayResults (result e s) e (after_poll e s))
     = (if 2000 <? elapsed e s
        then [display_fillScreen SSD1306_BLACK; display_setCursor 0 0]
        else [])
       ++ rendering (result e s)
  /\ outcome_of (loop e s) = Returned tt
  /\ (overflow_blind (result e s) (clear_overflow (result e s)) ->
      calls_of (loop (never_overflowing e) s)
      = Serial_println "[====== ESP8266IRRecord - BEGIN ======]"
        :: dump (result e s)
        ++ calls_of (displayResults (result e s) e (after_poll e s))
        ++ [Serial_println "[====== ESP8266IRRecord - END ======]"]
      /\ g_previousDisplayMillis (state_of (loop e s))
         = g_previousDisplayMillis
             (state_of (loop (never_overflowing e) s))).
Proof.
  intros Hnew Hover.
  assert (Hnew' : new_code (never_overflowing e) s = true) by exact Hnew.
  rewrite (loop_new e s Hnew), (loop_new _ s Hnew'), displayResults_run.
  change (result (never_overflowing e) s) with (clear_overflow (result e s)).
  change (elapsed (never_overflowing e) s) with (elapsed e s).
  rewrite Hover.
  unfold calls_of, outcome_of, state_of. cbn [fst snd opt app].
  change (overflow (clear_overflow (result e s))) with false. cbn [opt app].
  rewrite <- !app_assoc.
  split; [ reflexivity | ]. split; [ reflexivity | ]. split; [ reflexivity | ].
  intros Hblind. destruct (blind_dump _ Hblind) as (Hdump & Hrend).
  rewrite Hdump, Hrend. split; reflexivity.
Qed.

(** The main loop never gets stuck. *)
Lemma loops_return (n : nat) :
  forall (e : env) (s : state), outcome_of (loops n e s) = Returned tt.
Proof.
  induction n as [| n IH]; intros e s; [ reflexivity | ].
  cbn [loops].
  pose proof (loop_returns e s) as Hloop.
  destruct (loop e s) as [[o s1] c1] eqn:Hrun. cbn in Hloop. subst o.
  rewrite (bind_returned e s loop (fun _ => loops n) tt s1 c1 Hrun).
  apply IH.
Qed.

Lemma preamble_off_display (k : nat) :
  forallb (fun c => negb (on_display c)) (preamble k) = true.
Proof.
  unfold preamble. cbn [forallb on_display negb andb].
  rewrite forallb_app. apply andb_true_intro. split.
  - induction k as [| k IH]; [ reflexivity | exact IH ].
  - unfold opt. destruct DECODE_HASH; reflexivity.
Qed.

(** C6: once [Serial] is ready and the sanity check has passed, a failed
    [display.begin] makes [setup] log [SSD1306 allocation FAILED] and never
    return: however many turns of [loop] one waits for, the run has made
    no further call and written no global; a successful [display.begin]
    makes [setup] log [SSD1306 allocation SUCCEEDED], draw the waiting
    screen and return, and the loop then runs. *)
Theorem display_begin_failure_halts (e : env) (s : state) (k : nat) :
  Serial_ready_after e = Some k ->
  lowLevelSanityCheck e = 0 ->
  forallb (fun c => negb (on_display c)) (preamble k) = true
  /\ if display_begin_result e then
       setup e s
       = (Returned tt, s,
          preamble k
          ++ [display_begin SSD1306_SWITCHCAPVCC 0x3C;
              Serial_println "SSD1306 allocation SUCCEEDED";
              display_fillScreen SSD1306_BLACK;
              display_setTextSize 2;
              display_setTextColor SSD1306_WHITE;
              display_setCursor 0 0;
              display_println (lit "Waiting\nfor\nIR Code...");
              display_display])
       /\ forall n,
           sketch n e s
           = (Returned tt, state_of (loops n e s),
              calls_of (setup e s) ++ calls_of (loops n e s))
     else
       forall n,
         sketch n e s
         = (Spinning, s,
            preamble k
            ++ [display_begin SSD1306_SWITCHCAPVCC 0x3C;
                Serial_println "SSD1306 allocation FAILED"]).
Proof.
  intros Hready Hsane. split; [ apply preamble_off_display | ].
  pose proof (setup_run e s k Hready Hsane) as Hsetup.
  destruct (display_begin_result e).
  - split; [ exact Hsetup | ]. intros n.
    unfold sketch.
    rewrite (bind_returned e s setup (fun _ => loops n) tt s _ Hsetup).
    rewrite loops_return, Hsetup. reflexivity.
  - intros n. unfold sketch. apply bind_spinning. exact Hsetup.
Qed.

End Failures.

(** ** Runs on the bench *)

(** The key of the source's comments: address 4, command 2. *)
Example press_on_display :
  map display_text
    (filter on_display
       (calls_of (loop (L := Bench.library) Bench.pressed Bench.stale)))
  = [EmptyString; EmptyString; EmptyString; EmptyString;
     lit "Protocol: NEC\n"; lit "Code    : 0x20DF40BF\n";
     lit "Address : 0x04FB (4)\n"; lit "Command : 0x02FD (2)\n";
     EmptyString].
Proof. vm_compute. reflexivity. Qed.

(** The counter wraps between the last update, 1000 ms before the wrap, and
    a reading of 1500: 2500 ms have elapsed. *)
Example elapsed_across_a_wrap :
  elapsed (Bench.world 1500 false Bench.press true)
    (Bench.shown_at (2 ^ 32 - 1000)) = 2500.
Proof. reflexivity. Qed.

(** The threshold itself does not clear: 2000 ms is not above 2000 ms. *)
Example no_clearing_at_the_threshold :
  existsb clears
    (calls_of (loop (L := Bench.library)
                 (Bench.world 2100 true Bench.press true) Bench.stale))
  = false.
Proof. vm_compute. reflexivity. Qed.

(** ** The claim on the Value line, as it was stated *)

(** C9 as stated speaks of every decode result.  The repeat code of an NEC
    remote has the value [0xFFFFFFFFFFFFFFFF] and the repeat flag: [loop]
    prints nothing for it, so no Value line although the value is not 0. *)
Lemma value_line_absent_for_repeat :
  ~ (forall (L : IRLibrary) (e : env) (s : state),
        existsb is_value_line (calls_of (loop e s)) = true
        <-> value (result e s) <> 0).
Proof.
  intros Hclaim.
  destruct (Hclaim Bench.library (Bench.world 5000 true Bench.held true)
              (Bench.shown_at 100)) as [_ Hprints].
  assert (Hnone : existsb is_value_line
                    (calls_of (loop (L := Bench.library)
                                 (Bench.world 5000 true Bench.held true)
                                 (Bench.shown_at 100))) = false)
    by (vm_compute; reflexivity).
  rewrite Hprints in Hnone; [ discriminate Hnone | ].
  vm_compute. discriminate.
Qed.

(** ** The properties on the bench *)

Lemma clear_iff_elapsed_exceeds_threshold_witness :
  new_code Bench.pressed Bench.stale = true
  /\ filter on_display
       (calls_of (loop (L := Bench.library) Bench.pressed Bench.stale))
     = [display_fillScreen SSD1306_BLACK; display_setCursor 0 0]
       ++ rendering (L := Bench.library) Bench.press.
Proof.
  split; [ reflexivity | ].
  exact (proj1 (clear_iff_elapsed_exceeds_threshold (L := Bench.library)
                  Bench.pressed Bench.stale eq_refl)).
Defined.

Lemma idle_indicator_witness :
  new_code Bench.quiet Bench.stale = false
  /\ calls_of (loop (L := Bench.library) Bench.quiet Bench.stale)
     = [display_fillRect 126 62 2 2 SSD1306_WHITE; display_display].
Proof.
  split; [ reflexivity | ].
  exact (idle_indicator (L := Bench.library) Bench.quiet Bench.stale eq_refl).
Defined.

Lemma repeat_triggers_no_render_witness :
  repeat (result Bench.holding Bench.stale) = true
  /\ filter on_Serial
       (calls_of (loop (L := Bench.library) Bench.holding Bench.stale)) = []
  /\ g_previousDisplayMillis
       (state_of (loop (L := Bench.library) Bench.holding Bench.stale)) = 100.
Proof.
  split; [ reflexivity | ].
  destruct (repeat_triggers_no_render (L := Bench.library)
              Bench.holding Bench.stale eq_refl) as (Hlog & _ & _ & Hstamp).
  split; [ exact Hlog | exact Hstamp ].
Defined.

Lemma address_and_command_lines_witness :
  new_code Bench.pressed Bench.stale = true
  /\ 0 < address (result Bench.pressed Bench.stale) <= 255
  /\ display_text (address_on_display 4) = lit "Address : 0x04FB (4)\n"
  /\ serial_text (address_on_Serial 4) = lit "Address: 0x04FB (4)\n"
  /\ In (address_on_display 4)
       (calls_of (loop (L := Bench.library) Bench.pressed Bench.stale)).
Proof.
  assert (Hbyte : 0 < address (result Bench.pressed Bench.stale) <= 255)
    by (split; [ reflexivity | discriminate ]).
  split; [ reflexivity | ]. split; [ exact Hbyte | ].
  destruct (proj1 (address_and_command_lines (L := Bench.library)
                     Bench.pressed Bench.stale eq_refl) Hbyte)
    as (Hshown & Htext & _ & Hlog).
  split; [ exact Htext | ]. split; [ exact Hlog | exact Hshown ].
Defined.

Lemma overflow_warns_and_continues_witness :
  new_code Bench.pressed_long Bench.stale = true
  /\ overflow (result Bench.pressed_long Bench.stale) = true
  /\ overflow_blind (L := Bench.library)
       (result Bench.pressed_long Bench.stale)
       (clear_overflow (result Bench.pressed_long Bench.stale))
  /\ exists rest,
      rest
      = dump (L := Bench.library) Bench.long_press
        ++ clearing ++ rendering (L := Bench.library) Bench.long_press
        ++ [Serial_println "[====== ESP8266IRRecord - END ======]"]
      /\ calls_of (loop (L := Bench.library) Bench.pressed_long Bench.stale)
         = Serial_println "[====== ESP8266IRRecord - BEGIN ======]"
           :: Serial_printf
                (D_WARN_BUFFERFULL (IRLibrary := Bench.library)
                 ++ lit "\n")%string
                [AInt 4096]
           :: rest
      /\ calls_of (loop (L := Bench.library)
                     (never_overflowing Bench.pressed_long) Bench.stale)
         = Serial_println "[====== ESP8266IRRecord - BEGIN ======]" :: rest.
Proof.
  assert (Hblind : overflow_blind (L := Bench.library)
                     (result Bench.pressed_long Bench.stale)
                     (clear_overflow (result Bench.pressed_long Bench.stale)))
    by (repeat split).
  split; [ reflexivity | ]. split; [ reflexivity | ]. split; [ exact Hblind | ].
  destruct (overflow_warns_and_continues (L := Bench.library)
              Bench.pressed_long Bench.stale eq_refl eq_refl)
    as (Hwith & _ & _ & Hsame).
  eexists. split; [ reflexivity | ].
  split; [ exact Hwith | exact (proj1 (Hsame Hblind)) ].
Defined.

Lemma display_begin_failure_halts_witness :
  Serial_ready_after Bench.broken_display = Some 0%nat
  /\ lowLevelSanityCheck Bench.broken_display = 0
  /\ forall n,
      sketch (L := Bench.library) n Bench.broken_display Bench.stale
      = (Spinning, Bench.stale,
         preamble (L := Bench.library) 0
         ++ [display_begin SSD1306_SWITCHCAPVCC 0x3C;
             Serial_println "SSD1306 allocation FAILED"]).
Proof.
  split; [ reflexivity | ]. split; [ reflexivity | ].
  exact (proj2 (display_begin_failure_halts (L := Bench.library)
                  Bench.broken_display Bench.stale 0 eq_refl eq_refl)).
Defined.

Lemma zero_field_is_omitted_witness :
  address (result Bench.pressed_bare Bench.stale) = 0
  /\ command (result Bench.pressed_bare Bench.stale) = 0
  /\ existsb is_address_line
       (calls_of (loop (L := Bench.library) Bench.pressed_bare Bench.stale))
     = false
  /\ existsb is_command_line
       (calls_of (loop (L := Bench.library) Bench.pressed_bare Bench.stale))
     = false.
Proof.
  split; [ reflexivity | ]. split; [ reflexivity | ].
  destruct (zero_field_is_omitted (L := Bench.library)
              Bench.pressed_bare Bench.stale) as (Haddress & Hcommand).
  split; [ exact (Haddress eq_refl) | exact (Hcommand eq_refl) ].
Defined.

Lemma value_line_of_new_code_witness :
  new_code Bench.pressed Bench.stale = true
  /\ 0 <= value (result Bench.pressed Bench.stale) < 2 ^ 64
  /\ In (value_line 0x20DF40BF)
       (calls_of (loop (L := Bench.library) Bench.pressed Bench.stale))
  /\ serial_text (value_line 0x20DF40BF) = lit "Value  : 0x0000000020DF40BF\n".
Proof.
  assert (Hfits : 0 <= value (result Bench.pressed Bench.stale) < 2 ^ 64)
    by (split; [ discriminate | reflexivity ]).
  split; [ reflexivity | ]. split; [ exact Hfits | ].
  destruct (value_line_of_new_code (L := Bench.library)
              Bench.pressed Bench.stale eq_refl Hfits)
    as (_ & Hin & Htext & _).
  split; [ apply Hin; discriminate | exact Htext ].
Defined.

(** * Further properties of [loop], [displayResults] and [setup] *)

(** ** The two devices, side by side *)

Section Devices.
Context {L : IRLibrary}.

Lemma display_part_of_new (e : env) (s : state) :
  new_code e s = true ->
  filter on_display (calls_of (loop e s))
  = opt (2000 <? elapsed e s) clearing ++ rendering (result e s).
Proof.
  intros Hnew. rewrite (loop_new e s Hnew). unfold calls_of. cbn [snd].
  destruct (dump_on_Serial (result e s)) as [Hd _].
  cbn [filter on_display]. rewrite !filter_app, Hd, rendering_on_display.
  unfold opt, warning, clearing.
  destruct (overflow (result e s)), (2000 <? elapsed e s);
    cbn -[rendering]; rewrite ?app_nil_r; reflexivity.
Qed.

Lemma dump_all_Serial (r : decode_results) :
  filter on_Serial (dump r) = dump r /\ forallb on_Serial (dump r) = true.
Proof.
  unfold dump, opt.
  destruct (negb (String.length _ =? 0)%nat), (negb (address r =? 0)),
    (negb (command r =? 0)), (negb (value r =? 0)); split; reflexivity.
Qed.

Lemma rendering_all_display (r : decode_results) :
  filter on_Serial (rendering r) = []
  /\ forallb on_display (rendering r) = true.
Proof.
  unfold rendering, opt.
  destruct (0 <? address r), (0 <? command r); split; reflexivity.
Qed.

Lemma serial_part_of_new (e : env) (s : state) :
  new_code e s = true ->
  filter on_Serial (calls_of (loop e s))
  = Serial_println "[====== ESP8266IRRecord - BEGIN ======]"
    :: opt (overflow (result e s)) [warning]
    ++ dump (result e s)
    ++ [Serial_println "[====== ESP8266IRRecord - END ======]"].
Proof.
  intros Hnew. rewrite (loop_new e s Hnew). unfold calls_of. cbn [snd].
  destruct (dump_all_Serial (result e s)) as [Hd _].
  destruct (rendering_all_display (result e s)) as [Hr _].
  cbn [filter on_Serial]. rewrite !filter_app, Hd, Hr.
  unfold opt, warning, clearing.
  destruct (overflow (result e s)), (2000 <? elapsed e s); reflexivity.
Qed.

Lemma positive_is_nonzero (a : Z) : 0 <= a -> (0 <? a) = negb (a =? 0).
Proof.
  intros Ha.
  destruct (Z.ltb_spec 0 a), (Z.eqb_spec a 0); cbn; (lia || reflexivity).
Qed.

(** X1: for a new code whose address and command are unsigned values, the
    address line is on the display exactly when it is on the serial log,
    namely when the address is not 0; the same for the command line.  The
    display tests [> 0] and the log tests for non-zero. *)
Theorem field_lines_on_both_devices (e : env) (s : state) :
  new_code e s = true ->
  0 <= address (result e s) ->
  0 <= command (result e s) ->
  existsb is_address_line (filter on_display (calls_of (loop e s)))
  = negb (address (result e s) =? 0)
  /\ existsb is_address_line (filter on_Serial (calls_of (loop e s)))
     = negb (address (result e s) =? 0)
  /\ existsb is_command_line (filter on_display (calls_of (loop e s)))
     = negb (command (result e s) =? 0)
  /\ existsb is_command_line (filter on_Serial (calls_of (loop e s)))
     = negb (command (result e s) =? 0).
Proof.
  intros Hnew Ha Hc.
  rewrite (display_part_of_new e s Hnew), (serial_part_of_new e s Hnew).
  rewrite <- (positive_is_nonzero _ Ha), <- (positive_is_nonzero _ Hc).
  assert (Hsame_a : negb (address (result e s) =? 0)
                    = (0 <? address (result e s)))
    by (symmetry; apply positive_is_nonzero, Ha).
  assert (Hsame_c : negb (command (result e s) =? 0)
                    = (0 <? command (result e s)))
    by (symmetry; apply positive_is_nonzero, Hc).
  cbn [existsb is_address_line is_command_line orb].
  rewrite !existsb_app.
  unfold dump, rendering, warning, clearing, opt.
  rewrite Hsame_a, Hsame_c.
  destruct (overflow (result e s)), (2000 <? elapsed e s),
    (negb (String.length _ =? 0)%nat), (negb (value _ =? 0)),
    (0 <? address (result e s)), (0 <? command (result e s));
    repeat split.
Qed.

(** X4: whatever an iteration draws, it flushes, once and last: the calls
    that reach the display are none at all, or end with the one
    [display.display()] of the iteration. *)
Theorem drawing_ends_with_one_flush (e : env) (s : state) :
  filter on_display (calls_of (loop e s)) = []
  \/ exists drawn,
      filter on_display (calls_of (loop e s)) = drawn ++ [display_display]
      /\ drawn <> []
      /\ existsb is_flush drawn = false.
Proof.
  destruct (new_code e s) eqn:Hnew.
  - right. rewrite (display_part_of_new e s Hnew).
    exists (removelast (opt (2000 <? elapsed e s) clearing
                        ++ rendering (result e s))).
    unfold rendering, clearing, opt.
    destruct (2000 <? elapsed e s), (0 <? address (result e s)),
      (0 <? command (result e s));
      (split; [ reflexivity | split; [ discriminate | reflexivity ] ]).
  - rewrite (loop_idle e s Hnew). unfold calls_of, opt, indicator. cbn [snd].
    destruct (2000 <? elapsed e s); [ right | left; reflexivity ].
    exists [display_fillRect 126 62 2 2 SSD1306_WHITE].
    split; [ reflexivity | split; [ discriminate | reflexivity ] ].
Qed.

(** X5: for a new code the iteration first writes its whole dump to the
    serial log, from the BEGIN marker on, then makes all its calls on the
    display, and last writes the END marker. *)
Theorem dump_then_display_then_end (e : env) (s : state) :
  new_code e s = true ->
  exists logged shown,
    calls_of (loop e s)
    = Serial_println "[====== ESP8266IRRecord - BEGIN ======]"
      :: logged ++ shown
      ++ [Serial_println "[====== ESP8266IRRecord - END ======]"]
    /\ forallb on_Serial logged = true
    /\ forallb on_display shown = true
    /\ shown = filter on_display (calls_of (loop e s)).
Proof.
  intros Hnew.
  exists (opt (overflow (result e s)) [warning] ++ dump (result e s)),
    (opt (2000 <? elapsed e s) clearing ++ rendering (result e s)).
  rewrite (display_part_of_new e s Hnew), (loop_new e s Hnew).
  unfold calls_of. cbn [snd].
  destruct (dump_all_Serial (result e s)) as [_ Hd].
  destruct (rendering_all_display (result e s)) as [_ Hr].
  rewrite !forallb_app, Hd, Hr.
  unfold opt, warning, clearing.
  destruct (overflow (result e s)), (2000 <? elapsed e s);
    rewrite <- ?app_assoc; repeat split.
Qed.


End Devices.

(** ** Several iterations *)

Section Sequences.
Context {L : IRLibrary}.

Lemma loops_succ (n : nat) (e : env) (s : state) :
  loops (S n) e s
  = (outcome_of (loops n e (state_of (loop e s))),
     state_of (loops n e (state_of (loop e s))),
     calls_of (loop e s) ++ calls_of (loops n e (state_of (loop e s)))).
Proof.
  cbn [loops]. pose proof (loop_returns e s) as Hret.
  destruct (loop e s) as [[o s1] c1] eqn:Hrun. cbn in Hret. subst o.
  rewrite (bind_returned e s loop (fun _ => loops n) tt s1 c1 Hrun).
  reflexivity.
Qed.

Lemma calls_of_loops_succ (n : nat) (e : env) (s : state) :
  calls_of (loops (S n) e s)
  = calls_of (loop e s) ++ calls_of (loops n e (state_of (loop e s))).
Proof. rewrite loops_succ. reflexivity. Qed.

Lemma state_after_new (e : env) (s : state) :
  new_code e s = true ->
  state_of (loop e s) = after_display e (after_poll e s).
Proof. intros Hnew. rewrite (loop_new e s Hnew). reflexivity. Qed.

(** X2: when two iterations in a row each handle a new code, the second
    clears the display exactly when the clock reading at its top is more
    than 2000 ms, modulo 2^32, after the reading [displayResults] took at
    the end of the first: within that time the second code is drawn below
    the first. *)
Theorem second_code_within_grace (e : env) (s : state) :
  new_code e s = true ->
  new_code e (state_of (loop e s)) = true ->
  let gap := (millis_reading e (S (S (millis_calls s)))
              - millis_reading e (S (millis_calls s))) mod 2 ^ 32 in
  elapsed e (state_of (loop e s)) = gap
  /\ filter on_display (calls_of (loops 2 e s))
     = filter on_display (calls_of (loop e s))
       ++ (if 2000 <? gap
           then [display_fillScreen SSD1306_BLACK; display_setCursor 0 0]
           else [])
       ++ rendering (result e (state_of (loop e s))).
Proof.
  intros Hfirst Hsecond gap.
  assert (Hgap : elapsed e (state_of (loop e s)) = gap).
  { rewrite (state_after_new e s Hfirst). unfold elapsed, now, gap.
    cbn [after_display after_poll millis_calls g_previousDisplayMillis].
    unfold sub32, u32.
    rewrite Zminus_mod_idemp_l, Zminus_mod_idemp_r. reflexivity. }
  split; [ exact Hgap | ].
  rewrite !calls_of_loops_succ.
  change (calls_of (loops 0 e (state_of (loop e (state_of (loop e s))))))
    with (@nil call).
  rewrite app_nil_r, filter_app, (display_part_of_new _ _ Hsecond), Hgap.
  reflexivity.
Qed.




Lemma preamble_filtered (k : nat) : filter on_display (preamble k) = [].
Proof.
  unfold preamble. cbn [filter on_display]. rewrite filter_app.
  assert (Hwait : filter on_display (List.repeat (delay 50) k) = [])
    by (induction k as [| j IHj]; [ reflexivity | exact IHj ]).
  rewrite Hwait. unfold opt. destruct DECODE_HASH; reflexivity.
Qed.

Lemma loops_then_loop (m : nat) :
  forall (e : env) (s : state),
    calls_of (loops (S m) e s)
    = calls_of (loops m e s) ++ calls_of (loop e (state_of (loops m e s))).
Proof.
  induction m as [| m IH]; intros e s.
  - rewrite calls_of_loops_succ. cbn [loops]. cbn. apply app_nil_r.
  - rewrite calls_of_loops_succ, IH, (calls_of_loops_succ m), app_assoc.
    rewrite (loops_succ m e s). reflexivity.
Qed.

(** [m] idle iterations in a row: what they call and what they leave. *)
Lemma idle_prefix (m : nat) :
  forall (e : env) (s : state),
    quiet_for e (decode_calls s) m ->
    calls_of (loops m e s)
    = indicator_run e (g_previousDisplayMillis s) (millis_calls s) m
    /\ g_previousDisplayMillis (state_of (loops m e s))
       = g_previousDisplayMillis s
    /\ millis_calls (state_of (loops m e s)) = (millis_calls s + m)%nat.
Proof.
  induction m as [| m IH]; intros e s Hquiet.
  - cbn. rewrite Nat.add_0_r. repeat split.
  - assert (Hidle : new_code e s = false) by (apply Hquiet; lia).
    rewrite loops_succ, (loop_idle e s Hidle).
    unfold state_of, calls_of. cbn [fst snd].
    destruct (IH e (after_poll e s)) as (Hcalls & Hprev & Hmil).
    { intros k r Hk. apply Hquiet. cbn [after_poll decode_calls] in Hk. lia. }
    unfold state_of, calls_of in *. cbn [fst snd] in *.
    rewrite Hcalls, Hprev, Hmil.
    cbn [after_poll g_previousDisplayMillis millis_calls indicator_run].
    repeat split; lia.
Qed.

Lemma indicator_run_on_display (e : env) (prev : Z) (n : nat) :
  forall m, filter on_display (indicator_run e prev m n)
            = indicator_run e prev m n.
Proof.
  induction n as [| n IH]; intros m; [ reflexivity | ].
  cbn [indicator_run]. rewrite filter_app, IH.
  unfold opt, indicator. destruct (2000 <? _); reflexivity.
Qed.

(** X7: [setup] leaves the time stamp at its initial 0.  So when the first
    new code after power-on comes at the poll of any iteration, after [m]
    iterations without one, the display has got the waiting screen, the
    indicator for each of these iterations whose clock reading was above
    2000 ms, and then the rendering of the code, cleared first exactly when
    the clock reads more than 2000 ms at the top of that [loop]: a code in
    the first two seconds is drawn over the waiting screen. *)
Theorem first_code_after_power_on (e : env) (s : state) (k m : nat) :
  Serial_ready_after e = Some k ->
  lowLevelSanityCheck e = 0 ->
  display_begin_result e = true ->
  g_previousDisplayMillis s = 0 ->
  quiet_for e (decode_calls s) m ->
  new_code e (state_of (loops m e s)) = true ->
  filter on_display (calls_of (sketch (S m) e s))
  = [display_begin SSD1306_SWITCHCAPVCC 0x3C;
     display_fillScreen SSD1306_BLACK;
     display_setTextSize 2;
     display_setTextColor SSD1306_WHITE;
     display_setCursor 0 0;
     display_println (lit "Waiting\nfor\nIR Code...");
     display_display]
    ++ indicator_run e 0 (millis_calls s) m
    ++ (if 2000 <? millis_reading e (millis_calls s + m) mod 2 ^ 32
        then [display_fillScreen SSD1306_BLACK; display_setCursor 0 0]
        else [])
    ++ rendering (result e (state_of (loops m e s))).
Proof.
  intros Hready Hsane Hbegin Hzero Hquiet Hnew.
  pose proof (setup_run e s k Hready Hsane) as Hsetup.
  rewrite Hbegin in Hsetup.
  unfold sketch.
  rewrite (bind_returned e s setup (fun _ => loops (S m)) tt s _ Hsetup).
  unfold calls_of at 1. cbn [snd].
  destruct (idle_prefix m e s Hquiet) as (Hcalls & Hprev & Hmil).
  rewrite loops_then_loop, Hcalls, Hzero.
  rewrite !filter_app, preamble_filtered, indicator_run_on_display.
  rewrite (display_part_of_new _ _ Hnew).
  assert (Helapsed : elapsed e (state_of (loops m e s))
                     = millis_reading e (millis_calls s + m) mod 2 ^ 32).
  { unfold elapsed, now, sub32, u32. rewrite Hprev, Hmil, Hzero, Z.sub_0_r.
    apply Z.mod_mod. discriminate. }
  rewrite Helapsed. reflexivity.
Qed.

End Sequences.

(** ** Fields wider than a byte *)

Section Wide.

(** [%X] of a number with exactly [j + 1] digits prints them all. *)
Lemma digits_exact (j : nat) :
  forall (fuel : nat) (n : Z),
    (S j <= fuel)%nat ->
    16 ^ Z.of_nat j <= n < 16 ^ Z.of_nat (S j) ->
    digits hex_digit 16 fuel n = hex_fixed (S j) n.
Proof.
  induction j as [| j IH]; intros fuel n Hfuel Hn;
    (destruct fuel as [| fuel]; [ lia | ]); rewrite pow16_succ in Hn.
  - cbn in Hn. cbn [digits hex_fixed app].
    destruct (Z.ltb_spec n 16); [ | lia ].
    rewrite Z.mod_small by lia. reflexivity.
  - pose proof (pow16_pos j) as Hpos. rewrite !pow16_succ in Hn.
    cbn [digits]. destruct (Z.ltb_spec n 16); [ lia | ].
    rewrite (IH fuel (n / 16)); [ reflexivity | lia | ].
    rewrite pow16_succ. revert Hn Hpos.
    generalize (16 ^ Z.of_nat j) as p. intros p Hn Hpos. split.
    + apply Z.div_le_lower_bound; lia.
    + apply Z.div_lt_upper_bound; lia.
Qed.

Lemma pad0_enough (w : nat) (ds : list ascii) :
  (w <= List.length ds)%nat -> pad0 w ds = ds.
Proof.
  intros Hw. unfold pad0.
  replace (w - List.length ds)%nat with 0%nat by lia. reflexivity.
Qed.

Lemma pow16_values :
  16 ^ Z.of_nat 2 = 0x100 /\ 16 ^ Z.of_nat 3 = 0x1000
  /\ 16 ^ Z.of_nat 4 = 0x10000 /\ 16 ^ Z.of_nat 7 = 0x10000000
  /\ 16 ^ Z.of_nat 8 = 0x100000000 /\ 2 ^ 32 = 0x100000000.
Proof. repeat split. Qed.

Lemma wide_complement (v : Z) :
  0xFF < v <= 0xFFFF ->
  pad0 2 (conv_X (sub32 0xFF v))
  = hex_fixed 4 0xFFFF ++ hex_fixed 4 (0x100FF - v).
Proof.
  intros Hv.
  destruct pow16_values as (_ & _ & H4 & H7 & H8 & H32).
  assert (Hsub : sub32 0xFF v = 0x100000000 + 0xFF - v).
  { unfold sub32, u32. rewrite H32. symmetry.
    apply (Z.mod_unique _ _ (-1)); lia. }
  rewrite Hsub. unfold conv_X, u32. rewrite H32, Z.mod_small by lia.
  rewrite (digits_exact 7 8) by (rewrite ?H7, ?H8; lia).
  rewrite pad0_enough by (rewrite length_hex_fixed; lia).
  rewrite (hex_fixed_split 4 4), H4. f_equal.
  - f_equal. symmetry. apply (Z.div_unique _ _ _ (0x100FF - v)); lia.
  - rewrite <- hex_fixed_mod, H4. f_equal.
    symmetry. apply (Z.mod_unique _ _ 0xFFFF); lia.
Qed.

Lemma wide_first_field (v : Z) :
  0xFF < v <= 0xFFFF ->
  pad0 2 (conv_X v) = hex_fixed (if v <? 0x1000 then 3 else 4) v.
Proof.
  intros Hv.
  destruct pow16_values as (H2 & H3 & H4 & _ & _ & H32).
  unfold conv_X, u32. rewrite H32, Z.mod_small by lia.
  destruct (Z.ltb_spec v 0x1000).
  - rewrite (digits_exact 2 8) by (rewrite ?H2, ?H3; lia).
    apply pad0_enough. rewrite length_hex_fixed. lia.
  - rewrite (digits_exact 3 8) by (rewrite ?H3, ?H4; lia).
    apply pad0_enough. rewrite length_hex_fixed. lia.
Qed.

(** X8: for an address or command [v] above [0xFF] (up to 16 bits), the
    first field of its line has the three or four digits of [v], and the
    second is not two digits: [0xFF - v] wraps around as a 32-bit unsigned
    value and prints as the eight digits [FFFF] and [0x100FF - v]. *)
Theorem wide_field_line (v : Z) :
  0xFF < v <= 0xFFFF ->
  let fields :=
    (of_chars (hex_fixed (if (v <? 0x1000)%Z then 3 else 4) v)
     ++ "FFFF" ++ of_chars (hex_fixed 4 (0x100FF - v)%Z)
     ++ " (" ++ of_chars (conv_d v) ++ lit ")\n")%string in
  display_text (address_on_display v) = ("Address : 0x" ++ fields)%string
  /\ display_text (command_on_display v) = ("Command : 0x" ++ fields)%string
  /\ serial_text (address_on_Serial v) = ("Address: 0x" ++ fields)%string
  /\ serial_text (command_on_Serial v) = ("Command: 0x" ++ fields)%string.
Proof.
  intros Hv fields. subst fields.
  unfold address_on_display, command_on_display, address_on_Serial,
    command_on_Serial, field_args, display_text, serial_text.
  destruct (field_line_conversions v (sub32 0xFF v) v) as (-> & -> & -> & ->).
  rewrite (wide_complement v Hv), (wide_first_field v Hv), of_chars_app.
  change (of_chars (hex_fixed 4 0xFFFF)) with "FFFF"%string.
  rewrite !string_app_assoc. repeat split.
Qed.

End Wide.

(** ** [setup] before [Serial] is ready *)

Section Waiting.
Context {L : IRLibrary}.

Lemma bind_waiting {A B : Type} (m : M A) (k : A -> M B) (e : env)
      (s s1 : state) (c1 : list call) :
  m e s = (WaitingForSerial, s1, c1) ->
  bind m k e s = (WaitingForSerial, s1, c1).
Proof. intros Hm. cbn. unfold M_bind. rewrite Hm. reflexivity. Qed.

Lemma bind_assert_failed {A B : Type} (m : M A) (k : A -> M B) (e : env)
      (s s1 : state) (c1 : list call) :
  m e s = (AssertFailed, s1, c1) ->
  bind m k e s = (AssertFailed, s1, c1).
Proof. intros Hm. cbn. unfold M_bind. rewrite Hm. reflexivity. Qed.

Lemma setup_waiting (e : env) (s : state) :
  Serial_ready_after e = None ->
  setup e s
  = (WaitingForSerial, s,
     Serial_begin 115200 SERIAL_8N1 SERIAL_TX_ONLY
     :: List.repeat (delay 50) (waits_observed e)).
Proof.
  intros Hnever. unfold setup. cbn. unfold M_bind, wait_for_Serial. cbn.
  rewrite Hnever. reflexivity.
Qed.

Lemma setup_assert_failed (e : env) (s : state) (k : nat) :
  Serial_ready_after e = Some k ->
  lowLevelSanityCheck e <> 0 ->
  setup e s
  = (AssertFailed, s,
     Serial_begin 115200 SERIAL_8N1 SERIAL_TX_ONLY
     :: List.repeat (delay 50) k).
Proof.
  intros Hready Hbad. unfold setup. cbn. unfold M_bind, wait_for_Serial. cbn.
  rewrite Hready. cbn.
  destruct (Z.eqb_spec (lowLevelSanityCheck e) 0) as [Hz | _];
    [ contradiction | ].
  cbn. rewrite app_nil_r. reflexivity.
Qed.

(** X9: the sketch does not get past the start of [setup] when [Serial]
    never becomes ready or the sanity check of the library fails.  In the
    first case, for as long as it is watched, it has called [Serial.begin]
    and then [delay(50)] once per wait, and nothing else; in the second it
    has called [Serial.begin], [delay(50)] for each of the [k] waits, and
    then stopped at the [assert].  In both, for any number of turns of
    [loop] waited for, it has not returned and has written no global: no
    log line, no receiver set-up, nothing on the display. *)
Theorem setup_silent_until_ready (e : env) (s : state) (n : nat) :
  (Serial_ready_after e = None ->
   sketch n e s
   = (WaitingForSerial, s,
      Serial_begin 115200 SERIAL_8N1 SERIAL_TX_ONLY
      :: List.repeat (delay 50) (waits_observed e)))
  /\ (forall k,
         Serial_ready_after e = Some k ->
         lowLevelSanityCheck e <> 0 ->
         sketch n e s
         = (AssertFailed, s,
            Serial_begin 115200 SERIAL_8N1 SERIAL_TX_ONLY
            :: List.repeat (delay 50) k)).
Proof.
  split.
  - intros Hnever. unfold sketch.
    apply bind_waiting, setup_waiting, Hnever.
  - intros k Hready Hbad. unfold sketch.
    apply bind_assert_failed, setup_assert_failed; assumption.
Qed.

End Waiting.

(** ** The further properties on the bench *)

Lemma field_lines_on_both_devices_witness :
  new_code Bench.pressed Bench.stale = true
  /\ 0 <= address (result Bench.pressed Bench.stale)
  /\ 0 <= command (result Bench.pressed Bench.stale)
  /\ existsb is_address_line
       (filter on_display
          (calls_of (loop (L := Bench.library) Bench.pressed Bench.stale)))
     = true
  /\ existsb is_address_line
       (filter on_Serial
          (calls_of (loop (L := Bench.library) Bench.pressed Bench.stale)))
     = true.
Proof.
  assert (Ha : 0 <= address (result Bench.pressed Bench.stale))
    by discriminate.
  assert (Hc : 0 <= command (result Bench.pressed Bench.stale))
    by discriminate.
  split; [ reflexivity | ]. split; [ exact Ha | ]. split; [ exact Hc | ].
  destruct (field_lines_on_both_devices (L := Bench.library)
              Bench.pressed Bench.stale eq_refl Ha Hc)
    as (Hshown & Hlogged & _).
  split; [ exact Hshown | exact Hlogged ].
Defined.

Lemma second_code_within_grace_witness :
  new_code Bench.pressed Bench.stale = true
  /\ new_code Bench.pressed
       (state_of (loop (L := Bench.library) Bench.pressed Bench.stale)) = true
  /\ filter on_display
       (calls_of (loops (L := Bench.library) 2 Bench.pressed Bench.stale))
     = filter on_display
         (calls_of (loop (L := Bench.library) Bench.pressed Bench.stale))
       ++ rendering (L := Bench.library) Bench.press.
Proof.
  split; [ reflexivity | ]. split; [ reflexivity | ].
  exact (proj2 (second_code_within_grace (L := Bench.library)
                  Bench.pressed Bench.stale eq_refl eq_refl)).
Defined.


Lemma dump_then_display_then_end_witness :
  new_code Bench.pressed Bench.stale = true
  /\ exists logged shown,
      calls_of (loop (L := Bench.library) Bench.pressed Bench.stale)
      = Serial_println "[====== ESP8266IRRecord - BEGIN ======]"
        :: logged ++ shown
        ++ [Serial_println "[====== ESP8266IRRecord - END ======]"]
      /\ forallb on_Serial logged = true
      /\ forallb on_display shown = true.
Proof.
  split; [ reflexivity | ].
  destruct (dump_then_display_then_end (L := Bench.library)
              Bench.pressed Bench.stale eq_refl)
    as (logged & shown & Hcalls & Hlogged & Hshown & _).
  exists logged, shown.
  split; [ exact Hcalls | split; [ exact Hlogged | exact Hshown ] ].
Defined.

Lemma first_code_after_power_on_witness :
  Serial_ready_after Trial.late_press = Some 0%nat
  /\ lowLevelSanityCheck Trial.late_press = 0
  /\ display_begin_result Trial.late_press = true
  /\ g_previousDisplayMillis Trial.power_on = 0
  /\ quiet_for Trial.late_press (decode_calls Trial.power_on) 2
  /\ new_code Trial.late_press
       (state_of (loops (L := Bench.library) 2 Trial.late_press
                    Trial.power_on)) = true
  /\ filter on_display
       (calls_of (sketch (L := Bench.library) 3 Trial.late_press
                    Trial.power_on))
     = waiting_screen ++ rendering (L := Bench.library) Bench.press.
Proof.
  assert (Hquiet : quiet_for Trial.late_press
                     (decode_calls Trial.power_on) 2).
  { intros j r Hj. cbn in Hj.
    destruct j as [| [| j]]; [ reflexivity | reflexivity | lia ]. }
  repeat (split; [ reflexivity | ]).
  split; [ exact Hquiet | ]. split; [ reflexivity | ].
  exact (first_code_after_power_on (L := Bench.library)
           Trial.late_press Trial.power_on 0 2 eq_refl eq_refl eq_refl
           eq_refl Hquiet eq_refl).
Defined.

Lemma wide_field_line_witness :
  0xFF < address Trial.wide <= 0xFFFF
  /\ serial_text (address_on_Serial (address Trial.wide))
     = lit "Address: 0x1234FFFFEECB (4660)\n"
  /\ display_text (address_on_display (address Trial.wide))
     = lit "Address : 0x1234FFFFEECB (4660)\n".
Proof.
  assert (Hwide : 0xFF < address Trial.wide <= 0xFFFF)
    by (split; [ reflexivity | discriminate ]).
  split; [ exact Hwide | ].
  destruct (wide_field_line (address Trial.wide) Hwide)
    as (Hshown & _ & Hlogged & _).
  split; [ exact Hlogged | exact Hshown ].
Defined.

Lemma setup_silent_until_ready_witness :
  Serial_ready_after Trial.no_serial = None
  /\ Serial_ready_after Trial.insane = Some 2%nat
  /\ lowLevelSanityCheck Trial.insane <> 0
  /\ sketch (L := Bench.library) 5 Trial.no_serial Trial.power_on
     = (WaitingForSerial, Trial.power_on,
        [Serial_begin 115200 SERIAL_8N1 SERIAL_TX_ONLY;
         delay 50; delay 50; delay 50])
  /\ sketch (L := Bench.library) 5 Trial.insane Trial.power_on
     = (AssertFailed, Trial.power_on,
        [Serial_begin 115200 SERIAL_8N1 SERIAL_TX_ONLY; delay 50; delay 50]).
Proof.
  assert (Hbad : lowLevelSanityCheck Trial.insane <> 0) by discriminate.
  split; [ reflexivity | ]. split; [ reflexivity | ]. split; [ exact Hbad | ].
  split.
  - exact (proj1 (setup_silent_until_ready (L := Bench.library)
                    Trial.no_serial Trial.power_on 5) eq_refl).
  - exact (proj2 (setup_silent_until_ready (L := Bench.library)
                    Trial.insane Trial.power_on 5) 2%nat eq_refl Hbad).
Defined.
